(** * Project API: request-authorization and validation pipeline

    A shallow embedding of the TypeScript sources of the Project API
    (Express + Prisma + Zod + jsonwebtoken) and the properties of its
    authorization gate, validators, resource services and rate limiter.

    Conventions of the embedding:
    - an [async] function that may [throw] is a computation in the
      state-and-exception monad [Async W] over a world [W];
    - an Express middleware returns either the response it sent or the
      (possibly extended) request it handed to [next()];
    - a JavaScript object that is serialised outward is a [Json] value, so
      that "which keys does the body carry" is a statement about data;
    - timestamps ([Date.now()], [Date]) are integers, milliseconds since the
      epoch. *)

From Stdlib Require Import ZArith String Ascii List Bool Lia.
From stdpp Require Import base option list strings pretty sorting gmap.
Import ListNotations.

Local Open Scope Z_scope.
Local Open Scope string_scope.

(** ** JSON values and the response envelope (src/utils/response.ts) *)

Local Unset Elimination Schemes.
Inductive Json : Type :=
| JNull
| JBool (b : bool)
| JNum (z : Z)
| JStr (s : string)
| JDate (ms : Z)
| JArr (items : list Json)
| JObj (fields : list (string * Json)).
Local Set Elimination Schemes.


(** Property access [obj.key]; [None] is [undefined]. *)
Fixpoint assoc (key : string) (fields : list (string * Json)) : option Json :=
  match fields with
  | [] => None
  | (k, v) :: rest => if String.eqb k key then Some v else assoc key rest
  end.

Definition get (key : string) (j : Json) : option Json :=
  match j with
  | JObj fields => assoc key fields
  | _ => None
  end.

Record HttpResponse : Type := mkResponse { statusCode : Z; body : Json }.

Module Errors.
Record Kind : Type := mkKind { code : string; status : Z }.
Definition VALIDATION_ERROR := mkKind "VALIDATION_ERROR" 400.
Definition UNAUTHORIZED := mkKind "UNAUTHORIZED" 401.
Definition FORBIDDEN := mkKind "FORBIDDEN" 403.
Definition NOT_FOUND := mkKind "NOT_FOUND" 404.
Definition CONFLICT := mkKind "CONFLICT" 409.
Definition INTERNAL_ERROR := mkKind "INTERNAL_ERROR" 500.
End Errors.

(** [res.status(statusCode).json({ success: true, data })] *)
Definition sendSuccess (data : Json) (statusCode : Z) : HttpResponse :=
  mkResponse statusCode (JObj [("success", JBool true); ("data", data)]).

(** [res.status(statusCode).json({ success: false, error: { code, message,
    ...(details !== undefined && { details }) } })] *)
Definition sendError (code message : string) (statusCode : Z)
    (details : option Json) : HttpResponse :=
  mkResponse statusCode
    (JObj [("success", JBool false);
           ("error",
            JObj ([("code", JStr code); ("message", JStr message)]
                  ++ match details with
                     | Some d => [("details", d)]
                     | None => []
                     end))]).

(** The error code and message carried by a failure envelope. *)
Definition errorCode (r : HttpResponse) : option Json :=
  e ← get "error" (body r); get "code" e.

Definition errorMessage (r : HttpResponse) : option Json :=
  e ← get "error" (body r); get "message" e.

(** ** Thrown values and the outermost handler (src/middleware/errorHandler.ts) *)

(** What a [catch] can receive: a [ZodError] with its issues (path and
    message), an [AppError], or any other [Error], of which the handler
    reads [name], [code] and [meta.target]. *)
Inductive Thrown : Type :=
| ZodError (issues : list (list string * string))
| AppError (code message : string) (statusCode : Z) (details : option Json)
| OtherError (name message : string) (code : option string)
    (metaTarget : option (list string)).

(** [path.join('.')] *)
Fixpoint join (sep : string) (parts : list string) : string :=
  match parts with
  | [] => ""
  | [p] => p
  | p :: rest => p ++ sep ++ join sep rest
  end.

(** [prismaError.meta?.target?.[0] || 'field'] *)
Definition targetOrField (metaTarget : option (list string)) : string :=
  match metaTarget with
  | Some (t :: _) => if String.eqb t "" then "field" else t
  | _ => "field"
  end.

Definition internalError : HttpResponse :=
  sendError (Errors.code Errors.INTERNAL_ERROR) "An unexpected error occurred."
    (Errors.status Errors.INTERNAL_ERROR) None.

(** The handler also writes the error to the operational log; the log is
    not part of the response and is left out. *)
Definition errorHandler (err : Thrown) : HttpResponse :=
  match err with
  | ZodError issues =>
      let details :=
        map (fun e => JObj [("field", JStr (join "." (fst e)));
                            ("message", JStr (snd e))]) issues in
      sendError (Errors.code Errors.VALIDATION_ERROR) "Validation failed"
        (Errors.status Errors.VALIDATION_ERROR) (Some (JArr details))
  | AppError code message statusCode details =>
      sendError code message statusCode details
  | OtherError name _ code metaTarget =>
      if String.eqb name "PrismaClientKnownRequestError" then
        match code with
        | Some c =>
            if String.eqb c "P2002" then
              sendError (Errors.code Errors.CONFLICT)
                ("A record with this " ++ targetOrField metaTarget
                 ++ " already exists.")
                (Errors.status Errors.CONFLICT) None
            else if String.eqb c "P2025" then
              sendError (Errors.code Errors.NOT_FOUND) "Record not found."
                (Errors.status Errors.NOT_FOUND) None
            else internalError
        | None => internalError
        end
      else internalError
  end.

(** ** Asynchronous computations that may throw *)

Inductive Outcome (A : Type) : Type :=
| Returned (a : A)
| Threw (e : Thrown).
Arguments Returned {A} a.
Arguments Threw {A} e.

Definition Async (W A : Type) : Type := W -> Outcome A * W.

Definition ret {W A} (a : A) : Async W A := fun w => (Returned a, w).
Definition throw {W A} (e : Thrown) : Async W A := fun w => (Threw e, w).
Definition bind {W A B} (c : Async W A) (k : A -> Async W B) : Async W B :=
  fun w =>
    match c w with
    | (Returned a, w') => k a w'
    | (Threw e, w') => (Threw e, w')
    end.

Notation "x <- c ;; k" := (bind c (fun x => k))
  (at level 100, c at next level, right associativity).
Notation "c ;;; k" := (bind c (fun _ => k))
  (at level 100, right associativity).

(** [try { ... } catch (error) { next(error) }] followed by the global
    error handler: a controller always ends in a response. *)
Definition respond {W} (c : Async W HttpResponse) : W -> HttpResponse * W :=
  fun w =>
    match c w with
    | (Returned r, w') => (r, w')
    | (Threw e, w') => (errorHandler e, w')
    end.

(** ** The store (Prisma client over the schema of the initial migration)

    Two tables: [users] (primary key [id], unique index on [email]) and
    [projects] (primary key [id], foreign key [ownerId] to [users]).  The
    world also carries the clock that stamps the rows and the state of the
    identifier generator.  [updatedAt] has no default in the schema and
    the services never supply it: the client stamps it at every write. *)

Module User.
Record t : Type := mk {
  id : string;
  name : string;
  email : string;
  passwordHash : string;
  role : string;
  createdAt : Z;
  updatedAt : Z
}.
End User.

(** ['todo' | 'doing' | 'done'] *)
Inductive Status : Type := todo | doing | done.

Definition statusText (s : Status) : string :=
  match s with
  | todo => "todo"
  | doing => "doing"
  | done => "done"
  end.

Module Project.
Record t : Type := mk {
  id : string;
  title : string;
  description : option string;
  status : string;
  ownerId : string;
  createdAt : Z;
  updatedAt : Z
}.
End Project.

Record World : Type := mkWorld {
  users : list User.t;
  projects : gmap string Project.t;
  clock : Z;
  idSupply : N
}.

Definition setUsers (us : list User.t) (w : World) : World :=
  mkWorld us (projects w) (clock w) (idSupply w).
Definition setProjects (ps : gmap string Project.t) (w : World) : World :=
  mkWorld (users w) ps (clock w) (idSupply w).
Definition setClock (t : Z) (w : World) : World :=
  mkWorld (users w) (projects w) t (idSupply w).
Definition setIdSupply (n : N) (w : World) : World :=
  mkWorld (users w) (projects w) (clock w) n.

Module Prisma.

Definition knownRequestError (code : string) (target : option (list string))
    : Thrown :=
  OtherError "PrismaClientKnownRequestError" "" (Some code) target.

(** Identifier of the next created row. *)
Definition freshId (w : World) : string := "c" ++ pretty (idSupply w).

Record UserCreate : Type := mkUserCreate {
  uc_name : string;
  uc_email : string;
  uc_passwordHash : string;
  uc_role : string
}.

Record ProjectCreate : Type := mkProjectCreate {
  pc_title : string;
  pc_description : option string;
  pc_status : string;
  pc_ownerId : string
}.

(** The [data] of an update: an absent key leaves the column alone. *)
Record ProjectUpdate : Type := mkProjectUpdate {
  pu_title : option string;
  pu_description : option string;
  pu_status : option Status
}.

Definition user_findByEmail (email : string) : Async World (option User.t) :=
  fun w => (Returned (find (fun u => String.eqb (User.email u) email) (users w)), w).

Definition user_findById (id : string) : Async World (option User.t) :=
  fun w => (Returned (find (fun u => String.eqb (User.id u) id) (users w)), w).

Definition user_create (data : UserCreate) : Async World User.t :=
  fun w =>
    if existsb (fun u => String.eqb (User.email u) (uc_email data)) (users w)
    then (Threw (knownRequestError "P2002" (Some ["email"])), w)
    else if existsb (fun u => String.eqb (User.id u) (freshId w)) (users w)
    then (Threw (knownRequestError "P2002" (Some ["id"])), w)
    else
      let user :=
        User.mk (freshId w) (uc_name data) (uc_email data)
          (uc_passwordHash data) (uc_role data) (clock w) (clock w) in
      (Returned user,
       setIdSupply (N.succ (idSupply w)) (setUsers (users w ++ [user]) w)).

Definition project_findUnique (id : string)
    : Async World (option Project.t) :=
  fun w => (Returned (projects w !! id), w).

Definition project_create (data : ProjectCreate) : Async World Project.t :=
  fun w =>
    if negb (existsb (fun u => String.eqb (User.id u) (pc_ownerId data))
               (users w))
    then (Threw (knownRequestError "P2003" None), w)
    else
      match projects w !! freshId w with
      | Some _ => (Threw (knownRequestError "P2002" (Some ["id"])), w)
      | None =>
          let project :=
            Project.mk (freshId w) (pc_title data) (pc_description data)
              (pc_status data) (pc_ownerId data) (clock w) (clock w) in
          (Returned project,
           setIdSupply (N.succ (idSupply w))
             (setProjects (<[freshId w := project]> (projects w)) w))
      end.

Definition applyUpdate (data : ProjectUpdate) (now : Z) (p : Project.t)
    : Project.t :=
  Project.mk (Project.id p)
    (match pu_title data with Some t => t | None => Project.title p end)
    (match pu_description data with
     | Some d => Some d
     | None => Project.description p
     end)
    (match pu_status data with
     | Some s => statusText s
     | None => Project.status p
     end)
    (Project.ownerId p) (Project.createdAt p) now.

Definition project_update (id : string) (data : ProjectUpdate)
    : Async World Project.t :=
  fun w =>
    match projects w !! id with
    | None => (Threw (knownRequestError "P2025" None), w)
    | Some p =>
        let p' := applyUpdate data (clock w) p in
        (Returned p', setProjects (<[id := p']> (projects w)) w)
    end.

Definition project_delete (id : string) : Async World Project.t :=
  fun w =>
    match projects w !! id with
    | None => (Threw (knownRequestError "P2025" None), w)
    | Some p => (Returned p, setProjects (delete id (projects w)) w)
    end.

End Prisma.

(** ** Projects service (src/services/projects.service.ts) *)

Record CreateProjectInput : Type := mkCreateProjectInput {
  cp_title : string;
  cp_description : option string;
  cp_status : option Status
}.

Record UpdateProjectInput : Type := mkUpdateProjectInput {
  up_title : option string;
  up_description : option string;
  up_status : option Status
}.

Definition appError (k : Errors.Kind) (message : string) : Thrown :=
  AppError (Errors.code k) message (Errors.status k) None.

Definition createProject (ownerId : string) (input : CreateProjectInput)
    : Async World Project.t :=
  Prisma.project_create
    (Prisma.mkProjectCreate (cp_title input) (cp_description input)
       (match cp_status input with
        | Some s => statusText s
        | None => "todo"
        end)
       ownerId).

Definition getProjectById (projectId ownerId : string)
    : Async World Project.t :=
  project <- Prisma.project_findUnique projectId ;;
  match project with
  | None => throw (appError Errors.NOT_FOUND "Project not found.")
  | Some project =>
      if negb (String.eqb (Project.ownerId project) ownerId) then
        throw (appError Errors.FORBIDDEN
                 "You do not have permission to access this project.")
      else ret project
  end.

Definition updateProject (projectId ownerId : string)
    (input : UpdateProjectInput) : Async World Project.t :=
  project <- Prisma.project_findUnique projectId ;;
  match project with
  | None => throw (appError Errors.NOT_FOUND "Project not found.")
  | Some project =>
      if negb (String.eqb (Project.ownerId project) ownerId) then
        throw (appError Errors.FORBIDDEN
                 "You do not have permission to modify this project.")
      else
        (* only the fields that were provided *)
        let updateData := Prisma.mkProjectUpdate None None None in
        let updateData :=
          match up_title input with
          | Some t =>
              Prisma.mkProjectUpdate (Some t) (Prisma.pu_description updateData)
                (Prisma.pu_status updateData)
          | None => updateData
          end in
        let updateData :=
          match up_description input with
          | Some d =>
              Prisma.mkProjectUpdate (Prisma.pu_title updateData) (Some d)
                (Prisma.pu_status updateData)
          | None => updateData
          end in
        let updateData :=
          match up_status input with
          | Some s =>
              Prisma.mkProjectUpdate (Prisma.pu_title updateData)
                (Prisma.pu_description updateData) (Some s)
          | None => updateData
          end in
        Prisma.project_update projectId updateData
  end.

Definition deleteProject (projectId ownerId : string) : Async World unit :=
  project <- Prisma.project_findUnique projectId ;;
  match project with
  | None => throw (appError Errors.NOT_FOUND "Project not found.")
  | Some project =>
      if negb (String.eqb (Project.ownerId project) ownerId) then
        throw (appError Errors.FORBIDDEN
                 "You do not have permission to delete this project.")
      else
        Prisma.project_delete projectId ;;; ret tt
  end.

Definition adminDeleteProject (projectId : string) : Async World unit :=
  project <- Prisma.project_findUnique projectId ;;
  match project with
  | None => throw (appError Errors.NOT_FOUND "Project not found.")
  | Some _ => Prisma.project_delete projectId ;;; ret tt
  end.

(** The row as [res.json] serialises it. *)
Definition projectJson (p : Project.t) : Json :=
  JObj [("id", JStr (Project.id p));
        ("title", JStr (Project.title p));
        ("description",
         match Project.description p with Some d => JStr d | None => JNull end);
        ("status", JStr (Project.status p));
        ("ownerId", JStr (Project.ownerId p));
        ("createdAt", JDate (Project.createdAt p));
        ("updatedAt", JDate (Project.updatedAt p))].

(** ** Configuration and external primitives

    [env] (src/config/env.ts) supplies the signing key and the token
    lifetime.  The token codec (jsonwebtoken) and the password hasher
    (bcrypt) are libraries, not code of the repository: they enter through
    the calls the sources make.  [jwt.verify] reads the clock to check the
    expiry, and throws on any failed check. *)

Record Env : Type := mkEnv { jwtSecret : string; jwtExpiresIn : string }.

Module JwtPayload.
Record t : Type := mk { userId : string; role : string }.
End JwtPayload.

Record Bcrypt : Type := mkBcrypt {
  (** [bcrypt.hash(password, rounds)]; the salt it draws is not modelled *)
  bcrypt_hash : string -> Z -> string;
  (** [bcrypt.compare(password, hash)] *)
  bcrypt_compare : string -> string -> bool
}.

Record TokenCodec : Type := mkTokenCodec {
  (** [jwt.sign(payload, secret, { expiresIn })] at a given time *)
  jwt_sign : JwtPayload.t -> string -> string -> Z -> string;
  (** [jwt.verify(token, secret)] at a given time *)
  jwt_verify : string -> string -> Z -> Outcome JwtPayload.t
}.

(** ** Ports (src/ports) and adapters (src/adapters) *)

Record IUserRepository (W : Type) : Type := mkUserRepository {
  findByEmail : string -> Async W (option User.t);
  findById : string -> Async W (option User.t);
  create : Prisma.UserCreate -> Async W User.t
}.
Arguments findByEmail {W} _ _.
Arguments findById {W} _ _.
Arguments create {W} _ _.

Record IPasswordHasher (W : Type) : Type := mkPasswordHasher {
  hash : string -> Async W string;
  compare : string -> string -> Async W bool
}.
Arguments hash {W} _ _.
Arguments compare {W} _ _ _.

Record ITokenSigner (W : Type) : Type := mkTokenSigner {
  sign : JwtPayload.t -> Async W string
}.
Arguments sign {W} _ _.

Record AuthServiceDeps (W : Type) : Type := mkAuthServiceDeps {
  userRepo : IUserRepository W;
  passwordHasher : IPasswordHasher W;
  tokenSigner : ITokenSigner W
}.
Arguments userRepo {W} _.
Arguments passwordHasher {W} _.
Arguments tokenSigner {W} _.

Definition createPrismaUserRepo : IUserRepository World :=
  mkUserRepository World
    Prisma.user_findByEmail Prisma.user_findById Prisma.user_create.

Definition SALT_ROUNDS : Z := 10.

Definition bcryptHasher (bcrypt : Bcrypt) : IPasswordHasher World :=
  mkPasswordHasher World
    (fun password => ret (bcrypt_hash bcrypt password SALT_ROUNDS))
    (fun password hash => ret (bcrypt_compare bcrypt password hash)).

Definition jwtTokenSigner (codec : TokenCodec) (env : Env)
    : ITokenSigner World :=
  mkTokenSigner World
    (fun payload w =>
       (Returned (jwt_sign codec payload (jwtSecret env) (jwtExpiresIn env)
                    (clock w)), w)).

(** The default wiring of the auth service. *)
Definition defaultDeps (bcrypt : Bcrypt) (codec : TokenCodec) (env : Env)
    : AuthServiceDeps World :=
  mkAuthServiceDeps World createPrismaUserRepo (bcryptHasher bcrypt)
    (jwtTokenSigner codec env).

(** ** Auth service (src/services/auth.service.ts) *)

Record RegisterInput : Type := mkRegisterInput {
  ri_name : string;
  ri_email : string;
  ri_password : string
}.

Record LoginInput : Type := mkLoginInput {
  li_email : string;
  li_password : string
}.

(** The object literal with the six outward fields of a user. *)
Definition sanitizeUser (user : User.t) : Json :=
  JObj [("id", JStr (User.id user));
        ("name", JStr (User.name user));
        ("email", JStr (User.email user));
        ("role", JStr (User.role user));
        ("createdAt", JDate (User.createdAt user));
        ("updatedAt", JDate (User.updatedAt user))].

(** [{ user: sanitizeUser(user), token }] *)
Definition authResponse (user : User.t) (token : string) : Json :=
  JObj [("user", sanitizeUser user); ("token", JStr token)].

Module AuthService.
Section MakeAuthService.
Context {W : Type} (deps : AuthServiceDeps W).

Definition register (input : RegisterInput) : Async W Json :=
  existingUser <- findByEmail (userRepo deps) (ri_email input) ;;
  match existingUser with
  | Some _ =>
      throw (appError Errors.CONFLICT "A user with this email already exists.")
  | None =>
      passwordHash <- hash (passwordHasher deps) (ri_password input) ;;
      user <- create (userRepo deps)
                (Prisma.mkUserCreate (ri_name input) (ri_email input)
                   passwordHash "user") ;;
      token <- sign (tokenSigner deps)
                 (JwtPayload.mk (User.id user) (User.role user)) ;;
      ret (authResponse user token)
  end.

Definition login (input : LoginInput) : Async W Json :=
  user <- findByEmail (userRepo deps) (li_email input) ;;
  match user with
  | None => throw (appError Errors.UNAUTHORIZED "Invalid email or password.")
  | Some user =>
      isValidPassword <- compare (passwordHasher deps) (li_password input)
                           (User.passwordHash user) ;;
      if negb isValidPassword then
        throw (appError Errors.UNAUTHORIZED "Invalid email or password.")
      else
        token <- sign (tokenSigner deps)
                   (JwtPayload.mk (User.id user) (User.role user)) ;;
        ret (authResponse user token)
  end.

Definition getCurrentUser (userId : string) : Async W Json :=
  user <- findById (userRepo deps) userId ;;
  match user with
  | None => throw (appError Errors.NOT_FOUND "User not found.")
  | Some user => ret (sanitizeUser user)
  end.

End MakeAuthService.
End AuthService.

(** ** Requests and the authorization gate (src/middleware/auth.ts) *)

Module Request.
Record t : Type := mk {
  authorization : option string;   (* req.headers.authorization *)
  user : option JwtPayload.t;      (* req.user *)
  ip : option string;
  remoteAddress : option string;   (* req.socket.remoteAddress *)
  params_id : string;              (* req.params.id *)
  body : Json
}.

Definition setUser (payload : JwtPayload.t) (req : t) : t :=
  mk (authorization req) (Some payload) (ip req) (remoteAddress req)
    (params_id req) (body req).
End Request.

(** A middleware either sends a response or calls [next()]. *)
Inductive Gate : Type :=
| Sent (res : HttpResponse)
| Next (req : Request.t).

(** [authHeader.substring(7)] *)
Definition substringFrom (n : nat) (s : string) : string :=
  String.substring n (String.length s - n) s.

Definition authenticate (codec : TokenCodec) (env : Env) (req : Request.t)
    (w : World) : Gate :=
  match Request.authorization req with
  | None =>
      Sent (sendError (Errors.code Errors.UNAUTHORIZED)
              "Authentication required. Please provide a valid Bearer token."
              (Errors.status Errors.UNAUTHORIZED) None)
  | Some authHeader =>
      if String.eqb authHeader "" || negb (String.prefix "Bearer " authHeader)
      then
        Sent (sendError (Errors.code Errors.UNAUTHORIZED)
                "Authentication required. Please provide a valid Bearer token."
                (Errors.status Errors.UNAUTHORIZED) None)
      else
        let token := substringFrom 7 authHeader in
        match jwt_verify codec token (jwtSecret env) (clock w) with
        | Returned payload => Next (Request.setUser payload req)
        | Threw _ =>
            Sent (sendError (Errors.code Errors.UNAUTHORIZED)
                    "Invalid or expired token."
                    (Errors.status Errors.UNAUTHORIZED) None)
        end
  end.

Definition requireAdmin (req : Request.t) (w : World) : Gate :=
  match Request.user req with
  | None =>
      Sent (sendError (Errors.code Errors.UNAUTHORIZED)
              "Authentication required."
              (Errors.status Errors.UNAUTHORIZED) None)
  | Some user =>
      if negb (String.eqb (JwtPayload.role user) "admin") then
        Sent (sendError (Errors.code Errors.FORBIDDEN)
                "Admin access required."
                (Errors.status Errors.FORBIDDEN) None)
      else Next req
  end.

(** [router.use(a); router.use(b)]: [b] runs on what [a] passed on. *)
Definition andThen (a b : Request.t -> World -> Gate) (req : Request.t)
    (w : World) : Gate :=
  match a req w with
  | Sent res => Sent res
  | Next req' => b req' w
  end.

(** The gate of src/routes/admin.routes.ts. *)
Definition adminGate (codec : TokenCodec) (env : Env)
    : Request.t -> World -> Gate :=
  andThen (authenticate codec env) requireAdmin.

(** ** Controllers (src/controllers) and routes (src/routes)

    A controller parses the input with its Zod schema, calls the service
    and sends the result; anything thrown goes to [errorHandler].  The
    schemas are values of the Zod library and enter as their [parse]. *)

Definition parse {W A} (parsed : Outcome A) : Async W A :=
  fun w => (parsed, w).

(** [throw new Error('User not authenticated')] *)
Definition notAuthenticated : Thrown :=
  OtherError "Error" "User not authenticated" None None.

Definition deletedMessage : Json :=
  JObj [("message", JStr "Project deleted successfully")].

Module AuthController.
Section Controllers.
Context {W : Type} (deps : AuthServiceDeps W).
Context (registerSchema : Json -> Outcome RegisterInput).
Context (loginSchema : Json -> Outcome LoginInput).

Definition register (req : Request.t) : W -> HttpResponse * W :=
  respond (input <- parse (registerSchema (Request.body req)) ;;
           result <- AuthService.register deps input ;;
           ret (sendSuccess result 201)).

Definition login (req : Request.t) : W -> HttpResponse * W :=
  respond (input <- parse (loginSchema (Request.body req)) ;;
           result <- AuthService.login deps input ;;
           ret (sendSuccess result 200)).

Definition me (req : Request.t) : W -> HttpResponse * W :=
  respond (match Request.user req with
           | None => throw notAuthenticated
           | Some claim =>
               user <- AuthService.getCurrentUser deps
                         (JwtPayload.userId claim) ;;
               ret (sendSuccess user 200)
           end).
End Controllers.
End AuthController.

Module ProjectsController.
Section Controllers.
Context (updateProjectSchema : Json -> Outcome UpdateProjectInput).

Definition getById (req : Request.t) : World -> HttpResponse * World :=
  respond (match Request.user req with
           | None => throw notAuthenticated
           | Some claim =>
               project <- getProjectById (Request.params_id req)
                            (JwtPayload.userId claim) ;;
               ret (sendSuccess (projectJson project) 200)
           end).

Definition update (req : Request.t) : World -> HttpResponse * World :=
  respond (match Request.user req with
           | None => throw notAuthenticated
           | Some claim =>
               input <- parse (updateProjectSchema (Request.body req)) ;;
               project <- updateProject (Request.params_id req)
                            (JwtPayload.userId claim) input ;;
               ret (sendSuccess (projectJson project) 200)
           end).

Definition remove (req : Request.t) : World -> HttpResponse * World :=
  respond (match Request.user req with
           | None => throw notAuthenticated
           | Some claim =>
               deleteProject (Request.params_id req)
                 (JwtPayload.userId claim) ;;;
               ret (sendSuccess deletedMessage 200)
           end).
End Controllers.
End ProjectsController.

Module AdminController.
Definition deleteProject (req : Request.t) : World -> HttpResponse * World :=
  respond (adminDeleteProject (Request.params_id req) ;;;
           ret (sendSuccess deletedMessage 200)).
End AdminController.

(** A route: the gate, then the controller on the request it passed on. *)
Definition route (gate : Request.t -> World -> Gate)
    (controller : Request.t -> World -> HttpResponse * World)
    (req : Request.t) (w : World) : HttpResponse * World :=
  match gate req w with
  | Sent res => (res, w)
  | Next req' => controller req' w
  end.

(** [DELETE /admin/projects/:id] *)
Definition adminDeleteRoute (codec : TokenCodec) (env : Env)
    : Request.t -> World -> HttpResponse * World :=
  route (adminGate codec env) AdminController.deleteProject.

(** ** Pagination parsing (paginationSchema in the projects and admin
    controllers)

    A JavaScript number is here either [NaN] or an integer.  [parseInt]
    returns the integer denoted by the longest prefix of digits, after
    leading white space and an optional sign, and [NaN] when there is no
    digit.  A string is read as its sequence of code units below 256; a
    value beyond 2^53 is rounded by the conversion to a double, which is
    monotone and so commutes with the clamps below. *)

Inductive Number : Type :=
| NaN
| Int (z : Z).

Definition isWhiteSpace (c : ascii) : bool :=
  let n := nat_of_ascii c in
  ((9 <=? n) && (n <=? 13) || (n =? 32) || (n =? 160))%nat.

Fixpoint trimStart (s : string) : string :=
  match s with
  | String c rest => if isWhiteSpace c then trimStart rest else s
  | EmptyString => s
  end.

Definition digitOf (c : ascii) : option Z :=
  let n := nat_of_ascii c in
  if ((48 <=? n) && (n <=? 57))%nat then Some (Z.of_nat n - 48) else None.

(** Value of the longest prefix of decimal digits; [None] when empty. *)
Fixpoint digits (s : string) (acc : option Z) : option Z :=
  match s with
  | String c rest =>
      match digitOf c with
      | Some d => digits rest (Some (10 * default 0 acc + d))
      | None => acc
      end
  | EmptyString => acc
  end.

(** [parseInt(s, 10)] *)
Definition parseInt (s : string) : Number :=
  let s := trimStart s in
  let '(sign, s) :=
    match s with
    | String "-" rest => (-1, rest)
    | String "+" rest => (1, rest)
    | _ => (1, s)
    end in
  match digits s None with
  | Some v => Int (sign * v)
  | None => NaN
  end.

Definition Math_max (a b : Number) : Number :=
  match a, b with
  | Int x, Int y => Int (Z.max x y)
  | _, _ => NaN
  end.

Definition Math_min (a b : Number) : Number :=
  match a, b with
  | Int x, Int y => Int (Z.min x y)
  | _, _ => NaN
  end.

(** [val || fallback] on an optional string: [undefined] and [''] are
    falsy. *)
Definition orElse (val : option string) (fallback : string) : string :=
  match val with
  | Some s => if String.eqb s "" then fallback else s
  | None => fallback
  end.

Record Query : Type := mkQuery {
  q_limit : option string;
  q_offset : option string
}.

Record PaginationParams : Type := mkPaginationParams {
  limit : Number;
  offset : Number
}.

Definition parseLimit (val : option string) : Number :=
  let num := parseInt (orElse val "10") in
  Math_min (Math_max (Int 1) num) (Int 50).

Definition parseOffset (val : option string) : Number :=
  let num := parseInt (orElse val "0") in
  Math_max (Int 0) num.

Definition paginationSchema (query : Query) : PaginationParams :=
  mkPaginationParams (parseLimit (q_limit query)) (parseOffset (q_offset query)).

(** [lo <= n <= hi] for a JavaScript number: false on [NaN]. *)
Definition between (lo hi : Z) (n : Number) : bool :=
  match n with
  | Int z => ((lo <=? z) && (z <=? hi))%Z
  | NaN => false
  end.

Definition atLeast (lo : Z) (n : Number) : bool :=
  match n with
  | Int z => (lo <=? z)%Z
  | NaN => false
  end.

(** ** Rate limiter (src/middleware/rateLimit.ts)

    [rateLimitStore] is one process-wide map from client key to an entry;
    the middleware reads [Date.now()], given here as [now]. *)

Record RateLimitEntry : Type := mkEntry { count : Z; resetTime : Z }.

(** [req.ip || req.socket.remoteAddress || 'unknown'] *)
Definition clientKeyOf (req : Request.t) : string :=
  orElse (Request.ip req) (orElse (Request.remoteAddress req) "unknown").

(** [Math.ceil(ms / 1000)] on an integer number of milliseconds *)
Definition ceilSeconds (ms : Z) : Z := - ((- ms) / 1000).

Record Limited : Type := mkLimited {
  headers : list (string * Z);
  gate : Gate
}.

Definition tooManyRequests : HttpResponse :=
  sendError "RATE_LIMIT_EXCEEDED" "Too many requests. Please try again later."
    429 None.

Definition rateLimit (windowMs maxRequests : Z) (req : Request.t) (now : Z)
    (store : gmap string RateLimitEntry)
    : Limited * gmap string RateLimitEntry :=
  let clientKey := clientKeyOf req in
  let fresh := mkEntry 0 (now + windowMs) in
  let '(entry, store) :=
    match store !! clientKey with
    | Some entry =>
        if now >? resetTime entry
        then (fresh, <[clientKey := fresh]> store)
        else (entry, store)
    | None => (fresh, <[clientKey := fresh]> store)
    end in
  (* entry.count++ : the entry is the object held by the map *)
  let entry := mkEntry (count entry + 1) (resetTime entry) in
  let store := <[clientKey := entry]> store in
  let headers :=
    [("X-RateLimit-Limit", maxRequests);
     ("X-RateLimit-Remaining", Z.max 0 (maxRequests - count entry));
     ("X-RateLimit-Reset", ceilSeconds (resetTime entry))] in
  if count entry >? maxRequests
  then (mkLimited headers (Sent tooManyRequests), store)
  else (mkLimited headers (Next req), store).

(** 20 requests per 15 minutes *)
Definition authRateLimit
    : Request.t -> Z -> gmap string RateLimitEntry ->
      Limited * gmap string RateLimitEntry :=
  rateLimit (15 * 60 * 1000) 20.

(** The periodic clean-up: every entry whose window has passed is deleted. *)
Definition sweep (now : Z) (store : gmap string RateLimitEntry)
    : gmap string RateLimitEntry :=
  filter (fun kv => ¬ (resetTime kv.2 < now)) store.

(** What happens to the store over time: requests to the rate-limited
    routes and runs of the clean-up timer. *)
Inductive Event : Type :=
| Hit (req : Request.t) (now : Z)
| Sweep (now : Z).

Definition eventTime (ev : Event) : Z :=
  match ev with
  | Hit _ now => now
  | Sweep now => now
  end.

(** The decisions taken for the requests of [events], in order, each with
    the client key it was counted under, and the final store. *)
Fixpoint serve (events : list Event) (store : gmap string RateLimitEntry)
    : list (string * Gate) * gmap string RateLimitEntry :=
  match events with
  | [] => ([], store)
  | Hit req now :: rest =>
      let '(limited, store) := authRateLimit req now store in
      let '(decisions, store) := serve rest store in
      ((clientKeyOf req, gate limited) :: decisions, store)
  | Sweep now :: rest => serve rest (sweep now store)
  end.

(** The decisions taken for one client key. *)
Definition decisionsFor (key : string) (decisions : list (string * Gate))
    : list Gate :=
  map snd (filter (fun d => d.1 = key) decisions).

Definition admitted (g : Gate) : bool :=
  match g with
  | Next _ => true
  | Sent _ => false
  end.

(** ** Stand-ins for the external primitives

    Small executable instances of the codec, the hasher and the schemas,
    with the interfaces above, on which the services, the gate and the
    controllers can be run. *)

Fixpoint splitOn (sep : ascii) (s : string) : list string :=
  match s with
  | EmptyString => [""]
  | String c rest =>
      if Ascii.eqb c sep then "" :: splitOn sep rest
      else
        match splitOn sep rest with
        | part :: parts => String c part :: parts
        | [] => [String c ""]
        end
  end.

(** Lifetime in seconds of an [expiresIn] of the form ["<n>h"]. *)
Definition lifetimeSeconds (expiresIn : string) : Z :=
  match digits expiresIn None with
  | Some hours => 3600 * hours
  | None => 0
  end.

Definition jwtError (name message : string) : Thrown :=
  OtherError name message None None.

(** A token is [userId.role.exp.tag]: the claim, the expiry in seconds
    and a tag bound to the key. *)
Definition demoCodec : TokenCodec :=
  mkTokenCodec
    (fun payload secret expiresIn now =>
       JwtPayload.userId payload ++ "." ++ JwtPayload.role payload ++ "."
       ++ pretty (now / 1000 + lifetimeSeconds expiresIn) ++ "." ++ secret)
    (fun token secret now =>
       match splitOn "." token with
       | [userId; role; exp; tag] =>
           if negb (String.eqb tag secret) then
             Threw (jwtError "JsonWebTokenError" "invalid signature")
           else
             match digits exp None with
             | None => Threw (jwtError "JsonWebTokenError" "jwt malformed")
             | Some exp =>
                 if (exp <=? now / 1000)%Z
                 then Threw (jwtError "TokenExpiredError" "jwt expired")
                 else Returned (JwtPayload.mk userId role)
             end
       | _ => Threw (jwtError "JsonWebTokenError" "jwt malformed")
       end).

Definition demoBcrypt : Bcrypt :=
  mkBcrypt
    (fun password rounds => "$2b$" ++ pretty rounds ++ "$" ++ password)
    (fun password hash => String.eqb hash ("$2b$10$" ++ password)).

Definition demoEnv : Env := mkEnv "test-secret-key-for-testing-only" "24h".

Definition demoDeps : AuthServiceDeps World :=
  defaultDeps demoBcrypt demoCodec demoEnv.

Definition required (field : string) : Thrown :=
  ZodError [([field], "Required")].

Definition demoRegisterSchema (body : Json) : Outcome RegisterInput :=
  match get "name" body, get "email" body, get "password" body with
  | Some (JStr name), Some (JStr email), Some (JStr password) =>
      if String.eqb name "" then Threw (ZodError [(["name"], "Name is required")])
      else if (String.length password <? 8)%nat then
        Threw (ZodError [(["password"],
                          "Password must be at least 8 characters")])
      else Returned (mkRegisterInput name email password)
  | _, _, _ => Threw (required "body")
  end.

Definition demoLoginSchema (body : Json) : Outcome LoginInput :=
  match get "email" body, get "password" body with
  | Some (JStr email), Some (JStr password) =>
      if String.eqb password "" then
        Threw (ZodError [(["password"], "Password is required")])
      else Returned (mkLoginInput email password)
  | _, _ => Threw (required "body")
  end.

Definition optionalString (key : string) (body : Json)
    : Outcome (option string) :=
  match get key body with
  | None => Returned None
  | Some (JStr s) => Returned (Some s)
  | Some _ => Threw (ZodError [([key], "Expected string")])
  end.

Definition demoUpdateProjectSchema (body : Json)
    : Outcome UpdateProjectInput :=
  match optionalString "title" body, optionalString "description" body,
        optionalString "status" body with
  | Returned title, Returned description, Returned status =>
      if match title with
         | Some t => (String.length t <? 3)%nat
         | None => false
         end
      then Threw (ZodError [(["title"], "Title must be at least 3 characters")])
      else
        match status with
        | None => Returned (mkUpdateProjectInput title description None)
        | Some "todo" =>
            Returned (mkUpdateProjectInput title description (Some todo))
        | Some "doing" =>
            Returned (mkUpdateProjectInput title description (Some doing))
        | Some "done" =>
            Returned (mkUpdateProjectInput title description (Some done))
        | Some _ => Threw (ZodError [(["status"], "Invalid enum value")])
        end
  | Threw e, _, _ => Threw e
  | _, Threw e, _ => Threw e
  | _, _, Threw e => Threw e
  end.

Definition alice : User.t :=
  User.mk "u-alice" "Alice" "alice@example.com" "$2b$10$User@1234" "user"
    1000 1000.

Definition root : User.t :=
  User.mk "u-root" "Admin" "admin@example.com" "$2b$10$Admin@1234" "admin"
    500 500.

Definition bob : User.t :=
  User.mk "u-bob" "Bob" "bob@example.com" "$2b$10$Bobby@1234" "user"
    1500 1500.

Definition aliceProject : Project.t :=
  Project.mk "p-1" "Write the report" (Some "Quarterly numbers") "todo"
    "u-alice" 2000 2000.

Definition demoWorld : World :=
  mkWorld [root; alice; bob] {[ "p-1" := aliceProject ]} 5000 7.

Definition bearer (token : string) (id : string) : Request.t :=
  Request.mk (Some ("Bearer " ++ token)) None (Some "10.0.0.1") None id JNull.

Definition anonymous (body : Json) : Request.t :=
  Request.mk None None (Some "10.0.0.1") None "" body.

(** A user repository on which another registration of [winner] commits
    between the look-up and the insert of the current one: the race that
    the look-up before the insert leaves open. *)
Definition racingUserRepo (winner : Prisma.UserCreate)
    : IUserRepository World :=
  mkUserRepository World
    Prisma.user_findByEmail Prisma.user_findById
    (fun data w => Prisma.user_create data (Prisma.user_create winner w).2).

Definition carolBody (name password : string) : Json :=
  JObj [("name", JStr name); ("email", JStr "carol@example.com");
        ("password", JStr password)].

(** ** Vocabulary of the properties *)

(** The computation throws an [AppError] of the given kind and leaves the
    world as it was. *)
Definition failsWith {A W : Type} (k : Errors.Kind) (r : Outcome A * W)
    (w : W) : Prop :=
  exists message, r = (Threw (appError k message), w).

(** The response is a failure envelope of the given kind, with its status,
    and the world is as it was. *)
Definition rejects {W : Type} (k : Errors.Kind) (r : HttpResponse * W)
    (w : W) : Prop :=
  statusCode r.1 = Errors.status k
  /\ errorCode r.1 = Some (JStr (Errors.code k))
  /\ r.2 = w.


(** A request of an authenticated user for one project. *)
Definition asUser (userId role projectId : string) (body : Json)
    : Request.t :=
  Request.mk None (Some (JwtPayload.mk userId role)) None None projectId body.

(** The answer of the rate limiter to a request once the count of its
    client has been raised to [n] in a window that closes at [reset]. *)
Definition answer (maxRequests : Z) (req : Request.t) (n reset : Z)
    : Limited :=
  mkLimited
    [("X-RateLimit-Limit", maxRequests);
     ("X-RateLimit-Remaining", Z.max 0 (maxRequests - n));
     ("X-RateLimit-Reset", ceilSeconds reset)]
    (if n >? maxRequests then Sent tooManyRequests else Next req).

(** A client whose last window closed long ago with 100 requests counted,
    and a burst of its requests interleaved with the clean-up and with
    another client. *)
Definition staleStore : gmap string RateLimitEntry :=
  {[ "10.0.0.1" := mkEntry 100 500 ]}.

Definition otherClient : Request.t :=
  Request.mk None None None (Some "10.0.0.2") "" JNull.

Definition burst : list Event :=
  repeat (Hit (anonymous JNull) 2000) 19
  ++ [Sweep 3000; Hit otherClient 3000; Hit (anonymous JNull) 4000;
      Hit (anonymous JNull) 901000].

(** The two responses of the authentication check. *)
Definition credentialsRequired : HttpResponse :=
  sendError "UNAUTHORIZED"
    "Authentication required. Please provide a valid Bearer token." 401 None.

Definition tokenRejected : HttpResponse :=
  sendError "UNAUTHORIZED" "Invalid or expired token." 401 None.

(** The token issued to the seeded administrator at time 5000, valid for
    24 hours. *)
Definition rootToken : string :=
  jwt_sign demoCodec (JwtPayload.mk "u-root" "admin") (jwtSecret demoEnv)
    (jwtExpiresIn demoEnv) 5000.

(** * Further parts of the sources *)

(** ** Listing queries of the store

    [findMany] with [orderBy: { createdAt: 'desc' }], an optional
    [where: { ownerId }], [skip] and [take], and [count].  Rows created at
    the same instant come in the order the sort leaves them.  What the
    client does with a [skip] or [take] that is not a non-negative integer
    is not fixed here: it is the parameter [outOfRange]. *)

Module PrismaQuery.

Definition newestFirst (p q : Project.t) : Prop :=
  Project.createdAt q <= Project.createdAt p.

#[global] Instance newestFirst_dec p q : Decision (newestFirst p q).
Proof. unfold newestFirst. apply _. Defined.

Definition rowsWhere (ownerId : option string) (w : World) : list Project.t :=
  let rows := merge_sort newestFirst (map_to_list (projects w)).*2 in
  match ownerId with
  | Some o => filter (fun p => Project.ownerId p = o) rows
  | None => rows
  end.

(** The rows to skip and to take, when both are non-negative integers. *)
Definition window (skip take : Number) : option (nat * nat) :=
  match skip, take with
  | Int s, Int t =>
      if ((0 <=? s) && (0 <=? t))%Z then Some (Z.to_nat s, Z.to_nat t)
      else None
  | _, _ => None
  end.

Definition page {A : Type} (skip count : nat) (rows : list A) : list A :=
  take count (drop skip rows).

Definition OutOfRange : Type :=
  Number -> Number -> list Project.t -> Outcome (list Project.t).

Definition project_findMany (outOfRange : OutOfRange)
    (ownerId : option string) (skip take : Number)
    : Async World (list Project.t) :=
  fun w =>
    match window skip take with
    | Some (s, t) => (Returned (page s t (rowsWhere ownerId w)), w)
    | None => (outOfRange skip take (rowsWhere ownerId w), w)
    end.

Definition project_count (ownerId : option string) : Async World Z :=
  fun w => (Returned (Z.of_nat (length (rowsWhere ownerId w))), w).

(** [include: { owner: { select: { id, name, email } } }] *)
Record OwnerSummary : Type := mkOwnerSummary {
  os_id : string;
  os_name : string;
  os_email : string
}.

Record ProjectWithOwner : Type := mkProjectWithOwner {
  pw_project : Project.t;
  pw_owner : OwnerSummary
}.

Definition ownerOf (w : World) (p : Project.t) : option OwnerSummary :=
  u ← find (fun u => String.eqb (User.id u) (Project.ownerId p)) (users w);
  Some (mkOwnerSummary (User.id u) (User.name u) (User.email u)).

Definition withOwner (w : World) (p : Project.t) : option ProjectWithOwner :=
  mkProjectWithOwner p <$> ownerOf w p.

(** A row whose owner is missing, which the foreign key rules out, makes
    the client throw. *)
Definition project_findManyWithOwner (outOfRange : OutOfRange)
    (skip take : Number) : Async World (list ProjectWithOwner) :=
  rows <- project_findMany outOfRange None skip take ;;
  fun w =>
    match mapM (withOwner w) rows with
    | Some items => (Returned items, w)
    | None =>
        (Threw (OtherError "PrismaClientUnknownRequestError"
                  "Inconsistent query result" None None), w)
    end.

End PrismaQuery.

(** ** Listing operations of the projects service *)

Record PaginatedResponse (T : Type) : Type := mkPaginatedResponse {
  pg_items : list T;
  pg_total : Z;
  pg_limit : Number;
  pg_offset : Number
}.
Arguments mkPaginatedResponse {T} _ _ _ _.
Arguments pg_items {T} _.
Arguments pg_total {T} _.
Arguments pg_limit {T} _.
Arguments pg_offset {T} _.

Definition getProjectsByOwner (outOfRange : PrismaQuery.OutOfRange)
    (ownerId : string) (pagination : PaginationParams)
    : Async World (PaginatedResponse Project.t) :=
  items <- PrismaQuery.project_findMany outOfRange (Some ownerId)
             (offset pagination) (limit pagination) ;;
  total <- PrismaQuery.project_count (Some ownerId) ;;
  ret (mkPaginatedResponse items total (limit pagination) (offset pagination)).

Definition getAllProjects (outOfRange : PrismaQuery.OutOfRange)
    (pagination : PaginationParams)
    : Async World (PaginatedResponse PrismaQuery.ProjectWithOwner) :=
  items <- PrismaQuery.project_findManyWithOwner outOfRange
             (offset pagination) (limit pagination) ;;
  total <- PrismaQuery.project_count None ;;
  ret (mkPaginatedResponse items total (limit pagination) (offset pagination)).

(** ** Project repository port and its Prisma adapter
    (src/ports/projectRepo.port.ts, src/adapters/prismaProjectRepo.ts) *)

Module ProjectRepo.
Record t (W : Type) : Type := mk {
  create : Prisma.ProjectCreate -> Async W Project.t;
  findById : string -> Async W (option Project.t);
  findManyByOwner : string -> Number -> Number -> Async W (list Project.t);
  countByOwner : string -> Async W Z;
  update : string -> Prisma.ProjectUpdate -> Async W Project.t;
  delete : string -> Async W unit;
  findManyWithOwner :
    Number -> Number -> Async W (list PrismaQuery.ProjectWithOwner);
  count : Async W Z
}.
Arguments create {W} _ _.
Arguments findById {W} _ _.
Arguments findManyByOwner {W} _ _ _ _.
Arguments countByOwner {W} _ _.
Arguments update {W} _ _ _.
Arguments delete {W} _ _.
Arguments findManyWithOwner {W} _ _ _.
Arguments count {W} _.
End ProjectRepo.

(** [findManyByOwner(ownerId, { skip, take })] takes its options in the
    order skip, take. *)
Definition createPrismaProjectRepo (outOfRange : PrismaQuery.OutOfRange)
    : ProjectRepo.t World :=
  ProjectRepo.mk World
    Prisma.project_create
    Prisma.project_findUnique
    (fun ownerId skip take =>
       PrismaQuery.project_findMany outOfRange (Some ownerId) skip take)
    (fun ownerId => PrismaQuery.project_count (Some ownerId))
    Prisma.project_update
    (fun id => Prisma.project_delete id ;;; ret tt)
    (fun skip take =>
       PrismaQuery.project_findManyWithOwner outOfRange skip take)
    (PrismaQuery.project_count None).

(** ** Projects service over a repository (makeProjectsService) *)

Module ProjectsServiceDI.
Section MakeProjectsService.
Context {W : Type} (projectRepo : ProjectRepo.t W).

Definition createProject (ownerId : string) (input : CreateProjectInput)
    : Async W Project.t :=
  ProjectRepo.create projectRepo
    (Prisma.mkProjectCreate (cp_title input) (cp_description input)
       (match cp_status input with
        | Some s => statusText s
        | None => "todo"
        end)
       ownerId).

Definition getProjectsByOwner (ownerId : string)
    (pagination : PaginationParams)
    : Async W (PaginatedResponse Project.t) :=
  items <- ProjectRepo.findManyByOwner projectRepo ownerId
             (offset pagination) (limit pagination) ;;
  total <- ProjectRepo.countByOwner projectRepo ownerId ;;
  ret (mkPaginatedResponse items total (limit pagination) (offset pagination)).

Definition getProjectById (projectId ownerId : string)
    : Async W Project.t :=
  project <- ProjectRepo.findById projectRepo projectId ;;
  match project with
  | None => throw (appError Errors.NOT_FOUND "Project not found.")
  | Some project =>
      if negb (String.eqb (Project.ownerId project) ownerId) then
        throw (appError Errors.FORBIDDEN
                 "You do not have permission to access this project.")
      else ret project
  end.

(** [updateData], built from the fields that were provided. *)
Definition updateDataOf (input : UpdateProjectInput) : Prisma.ProjectUpdate :=
  let updateData := Prisma.mkProjectUpdate None None None in
  let updateData :=
    match up_title input with
    | Some t =>
        Prisma.mkProjectUpdate (Some t) (Prisma.pu_description updateData)
          (Prisma.pu_status updateData)
    | None => updateData
    end in
  let updateData :=
    match up_description input with
    | Some d =>
        Prisma.mkProjectUpdate (Prisma.pu_title updateData) (Some d)
          (Prisma.pu_status updateData)
    | None => updateData
    end in
  match up_status input with
  | Some s =>
      Prisma.mkProjectUpdate (Prisma.pu_title updateData)
        (Prisma.pu_description updateData) (Some s)
  | None => updateData
  end.

Definition updateProject (projectId ownerId : string)
    (input : UpdateProjectInput) : Async W Project.t :=
  project <- ProjectRepo.findById projectRepo projectId ;;
  match project with
  | None => throw (appError Errors.NOT_FOUND "Project not found.")
  | Some project =>
      if negb (String.eqb (Project.ownerId project) ownerId) then
        throw (appError Errors.FORBIDDEN
                 "You do not have permission to modify this project.")
      else ProjectRepo.update projectRepo projectId (updateDataOf input)
  end.

Definition deleteProject (projectId ownerId : string) : Async W unit :=
  project <- ProjectRepo.findById projectRepo projectId ;;
  match project with
  | None => throw (appError Errors.NOT_FOUND "Project not found.")
  | Some project =>
      if negb (String.eqb (Project.ownerId project) ownerId) then
        throw (appError Errors.FORBIDDEN
                 "You do not have permission to delete this project.")
      else ProjectRepo.delete projectRepo projectId
  end.

Definition getAllProjects (pagination : PaginationParams)
    : Async W (PaginatedResponse PrismaQuery.ProjectWithOwner) :=
  items <- ProjectRepo.findManyWithOwner projectRepo
             (offset pagination) (limit pagination) ;;
  total <- ProjectRepo.count projectRepo ;;
  ret (mkPaginatedResponse items total (limit pagination) (offset pagination)).

Definition adminDeleteProject (projectId : string) : Async W unit :=
  project <- ProjectRepo.findById projectRepo projectId ;;
  match project with
  | None => throw (appError Errors.NOT_FOUND "Project not found.")
  | Some _ => ProjectRepo.delete projectRepo projectId
  end.

End MakeProjectsService.
End ProjectsServiceDI.

(** ** Vocabulary of the further properties *)


(** The items of a listing that returned. *)
Definition itemsOf {T W : Type} (r : Outcome (PaginatedResponse T) * W)
    : list T :=
  match r.1 with
  | Returned page => pg_items page
  | Threw _ => []
  end.

(** Every project is owned by a stored user (the foreign key of the
    schema). *)
Definition ownersExist (w : World) : Prop :=
  forall k p,
    projects w !! k = Some p ->
    exists u, u ∈ users w /\ User.id u = Project.ownerId p.

(** ** Listing controllers (projects.controller.ts and the admin
    controller) *)

(** [JSON.stringify] writes [NaN] as [null]. *)
Definition numberJson (n : Number) : Json :=
  match n with
  | Int z => JNum z
  | NaN => JNull
  end.

Definition pageJson {T : Type} (item : T -> Json)
    (page : PaginatedResponse T) : Json :=
  JObj [("items", JArr (map item (pg_items page)));
        ("total", JNum (pg_total page));
        ("limit", numberJson (pg_limit page));
        ("offset", numberJson (pg_offset page))].

Definition projectWithOwnerJson (row : PrismaQuery.ProjectWithOwner) : Json :=
  match projectJson (PrismaQuery.pw_project row) with
  | JObj fields =>
      JObj (fields
            ++ [("owner",
                 JObj [("id", JStr (PrismaQuery.os_id (PrismaQuery.pw_owner row)));
                       ("name",
                        JStr (PrismaQuery.os_name (PrismaQuery.pw_owner row)));
                       ("email",
                        JStr (PrismaQuery.os_email (PrismaQuery.pw_owner row)))])])
  | other => other
  end.

Module ListingControllers.
Section Controllers.
Context (outOfRange : PrismaQuery.OutOfRange).
Context (createProjectSchema : Json -> Outcome CreateProjectInput).

(** [GET /projects]; the query's limit and offset are strings when
    present. *)
Definition list (req : Request.t) (query : Query)
    : World -> HttpResponse * World :=
  respond (match Request.user req with
           | None => throw notAuthenticated
           | Some claim =>
               let pagination := paginationSchema query in
               result <- getProjectsByOwner outOfRange
                           (JwtPayload.userId claim) pagination ;;
               ret (sendSuccess (pageJson projectJson result) 200)
           end).

(** [GET /admin/projects] *)
Definition listAllProjects (req : Request.t) (query : Query)
    : World -> HttpResponse * World :=
  respond (let pagination := paginationSchema query in
           result <- getAllProjects outOfRange pagination ;;
           ret (sendSuccess (pageJson projectWithOwnerJson result) 200)).

(** [POST /projects] *)
Definition create (req : Request.t) : World -> HttpResponse * World :=
  respond (match Request.user req with
           | None => throw notAuthenticated
           | Some claim =>
               input <- parse (createProjectSchema (Request.body req)) ;;
               project <- createProject (JwtPayload.userId claim) input ;;
               ret (sendSuccess (projectJson project) 201)
           end).

End Controllers.
End ListingControllers.

(** [GET /auth/me]: the authentication check, then the controller. *)
Definition meRoute (codec : TokenCodec) (env : Env)
    (deps : AuthServiceDeps World)
    : Request.t -> World -> HttpResponse * World :=
  route (authenticate codec env) (AuthController.me deps).

(** The user row that a registration inserts. *)
Definition registered (bcrypt : Bcrypt) (input : RegisterInput) (w : World)
    : User.t :=
  User.mk (Prisma.freshId w) (ri_name input) (ri_email input)
    (bcrypt_hash bcrypt (ri_password input) SALT_ROUNDS) "user"
    (clock w) (clock w).

(** The token that the default signer issues for a user at a given time. *)
Definition tokenFor (codec : TokenCodec) (env : Env) (user : User.t)
    (now : Z) : string :=
  jwt_sign codec (JwtPayload.mk (User.id user) (User.role user))
    (jwtSecret env) (jwtExpiresIn env) now.

(** The entry that the limiter leaves for a client after a request at
    [now], given the entry it found. *)
Definition nextEntry (windowMs now : Z) (found : option RateLimitEntry)
    : RateLimitEntry :=
  match found with
  | Some entry =>
      if now >? resetTime entry then mkEntry 1 (now + windowMs)
      else mkEntry (count entry + 1) (resetTime entry)
  | None => mkEntry 1 (now + windowMs)
  end.

(** The events without the runs of the clean-up. *)
Fixpoint withoutSweeps (events : list Event) : list Event :=
  match events with
  | [] => []
  | Hit req now :: rest => Hit req now :: withoutSweeps rest
  | Sweep _ :: rest => withoutSweeps rest
  end.

(** The events without the requests of the clients other than [key]. *)
Fixpoint withoutOthers (key : string) (events : list Event) : list Event :=
  match events with
  | [] => []
  | Hit req now :: rest =>
      if decide (clientKeyOf req = key)
      then Hit req now :: withoutOthers key rest
      else withoutOthers key rest
  | Sweep now :: rest => Sweep now :: withoutOthers key rest
  end.

(** The events come in the order of their time. *)
Definition chronological (events : list Event) : Prop :=
  StronglySorted Z.le (eventTime <$> events).

(** The two stores answer alike from time [T] on: a client has the same
    entry in both, or none in the first and an expired one in the
    second. *)
Definition sweptFrom (T : Z) (s1 s2 : gmap string RateLimitEntry) : Prop :=
  forall key,
    s1 !! key = s2 !! key
    \/ (s1 !! key = None
        /\ exists e, s2 !! key = Some e /\ resetTime e < T).


(** ** Request validation middleware (src/middleware/validate.ts) *)

Module Validate.

(** The three parts of a request that the middleware validates. *)
Record Payload : Type := mkPayload {
  body : Json;
  query : Json;
  params : Json
}.

(** [{ body?, query?, params? }], each schema through its [parse]. *)
Record ValidationSchemas : Type := mkValidationSchemas {
  s_body : option (Json -> Outcome Json);
  s_query : option (Json -> Outcome Json);
  s_params : option (Json -> Outcome Json)
}.

(** [if (schema) part = schema.parse(part)] *)
Definition applySchema (schema : option (Json -> Outcome Json))
    (part : Json) : Outcome Json :=
  match schema with
  | Some parse => parse part
  | None => Returned part
  end.

(** The middleware answers itself on a [ZodError]; any other error goes
    to [next(error)], that is to the global error handler. *)
Definition validateRequest (schemas : ValidationSchemas) (req : Payload)
    : HttpResponse + Payload :=
  let attempt : Outcome Payload :=
    match applySchema (s_body schemas) (body req) with
    | Threw e => Threw e
    | Returned body' =>
        match applySchema (s_query schemas) (query req) with
        | Threw e => Threw e
        | Returned query' =>
            match applySchema (s_params schemas) (params req) with
            | Threw e => Threw e
            | Returned params' => Returned (mkPayload body' query' params')
            end
        end
    end in
  match attempt with
  | Returned req' => inr req'
  | Threw (ZodError issues) =>
      let details :=
        map (fun e => JObj [("field", JStr (join "." (fst e)));
                            ("message", JStr (snd e))]) issues in
      inl (sendError (Errors.code Errors.VALIDATION_ERROR) "Validation failed"
             (Errors.status Errors.VALIDATION_ERROR) (Some (JArr details)))
  | Threw error => inl (errorHandler error)
  end.

End Validate.

(** The constraints of the schema, as a property of the store: every
    project is stored under its own id and owned by a stored user, and no
    two users share an email or an id. *)
Definition wellFormed (w : World) : Prop :=
  ownersExist w
  /\ (forall k p, projects w !! k = Some p -> Project.id p = k)
  /\ NoDup (User.email <$> users w)
  /\ NoDup (User.id <$> users w).

Definition demoCreateProjectSchema (body : Json)
    : Outcome CreateProjectInput :=
  match get "title" body, optionalString "description" body,
        optionalString "status" body with
  | Some (JStr title), Returned description, Returned status =>
      if (String.length title <? 3)%nat then
        Threw (ZodError [(["title"], "Title must be at least 3 characters")])
      else
        match status with
        | None => Returned (mkCreateProjectInput title description None)
        | Some "todo" =>
            Returned (mkCreateProjectInput title description (Some todo))
        | Some "doing" =>
            Returned (mkCreateProjectInput title description (Some doing))
        | Some "done" =>
            Returned (mkCreateProjectInput title description (Some done))
        | Some _ => Threw (ZodError [(["status"], "Invalid enum value")])
        end
  | Some (JStr _), Threw e, _ => Threw e
  | Some (JStr _), _, Threw e => Threw e
  | _, _, _ => Threw (required "title")
  end.


(** * Properties *)

(** ** Generic facts about the monad and the error handler *)

Lemma bind_returned {W A B} (c : Async W A) (k : A -> Async W B) w a w' :
  c w = (Returned a, w') -> bind c k w = k a w'.
Proof. intros H. unfold bind. now rewrite H. Qed.

Lemma bind_threw {W A B} (c : Async W A) (k : A -> Async W B) w e w' :
  c w = (Threw e, w') -> bind c k w = (Threw e, w').
Proof. intros H. unfold bind. now rewrite H. Qed.

Lemma respond_threw {W} (c : Async W HttpResponse) w e w' :
  c w = (Threw e, w') -> respond c w = (errorHandler e, w').
Proof. intros H. unfold respond. now rewrite H. Qed.

Lemma respond_returned {W} (c : Async W HttpResponse) w r w' :
  c w = (Returned r, w') -> respond c w = (r, w').
Proof. intros H. unfold respond. now rewrite H. Qed.

Lemma errorHandler_appError k message :
  errorHandler (appError k message)
  = sendError (Errors.code k) message (Errors.status k) None.
Proof. reflexivity. Qed.

Lemma rejects_sendError {W} k message (w : W) :
  rejects k (sendError (Errors.code k) message (Errors.status k) None, w) w.
Proof.
  unfold rejects, errorCode. cbn. repeat split.
Qed.

(** A controller whose service call fails with an [AppError] answers with
    that error's code and status. *)
Lemma respond_failsWith {W} (c : Async W HttpResponse) k w :
  failsWith k (c w) w -> rejects k (respond c w) w.
Proof.
  intros [message H]. rewrite (respond_threw _ _ _ _ H).
  rewrite errorHandler_appError. apply rejects_sendError.
Qed.

(** ** Ownership-scoped project operations *)

Section ProjectOperations.
Variables (w : World) (projectId requester : string).

Lemma getProjectById_missing :
  projects w !! projectId = None ->
  failsWith Errors.NOT_FOUND (getProjectById projectId requester w) w.
Proof.
  intros H. eexists. unfold getProjectById, bind, Prisma.project_findUnique.
  rewrite H. reflexivity.
Qed.

Lemma updateProject_missing input :
  projects w !! projectId = None ->
  failsWith Errors.NOT_FOUND (updateProject projectId requester input w) w.
Proof.
  intros H. eexists. unfold updateProject, bind, Prisma.project_findUnique.
  rewrite H. reflexivity.
Qed.

Lemma deleteProject_missing :
  projects w !! projectId = None ->
  failsWith Errors.NOT_FOUND (deleteProject projectId requester w) w.
Proof.
  intros H. eexists. unfold deleteProject, bind, Prisma.project_findUnique.
  rewrite H. reflexivity.
Qed.

Variable p : Project.t.
Hypothesis Hfound : projects w !! projectId = Some p.

Lemma getProjectById_foreign :
  Project.ownerId p <> requester ->
  failsWith Errors.FORBIDDEN (getProjectById projectId requester w) w.
Proof.
  intros Hne. apply String.eqb_neq in Hne. eexists.
  unfold getProjectById, bind, Prisma.project_findUnique.
  rewrite Hfound, Hne. reflexivity.
Qed.

Lemma updateProject_foreign input :
  Project.ownerId p <> requester ->
  failsWith Errors.FORBIDDEN (updateProject projectId requester input w) w.
Proof.
  intros Hne. apply String.eqb_neq in Hne. eexists.
  unfold updateProject, bind, Prisma.project_findUnique.
  rewrite Hfound, Hne. reflexivity.
Qed.

Lemma deleteProject_foreign :
  Project.ownerId p <> requester ->
  failsWith Errors.FORBIDDEN (deleteProject projectId requester w) w.
Proof.
  intros Hne. apply String.eqb_neq in Hne. eexists.
  unfold deleteProject, bind, Prisma.project_findUnique.
  rewrite Hfound, Hne. reflexivity.
Qed.

(** The patch sent to the store holds exactly the supplied fields. *)
Lemma updateProject_owned input :
  Project.ownerId p = requester ->
  updateProject projectId requester input w
  = Prisma.project_update projectId
      (Prisma.mkProjectUpdate (up_title input) (up_description input)
         (up_status input)) w.
Proof.
  intros Hown. apply String.eqb_eq in Hown.
  unfold updateProject, bind, Prisma.project_findUnique.
  rewrite Hfound, Hown. cbn.
  destruct input as [[t|] [d|] [s|]]; reflexivity.
Qed.

End ProjectOperations.

(** C1. GetProject, UpdateProject and DeleteProject, for a requester id and
    a project id: when no project has that id the operation fails with
    NOT_FOUND whoever the requester is; when the project exists and its
    owner differs from the requester it fails with FORBIDDEN.  The same
    holds of the responses of the three controllers (for PATCH, on a body
    that passes the schema).  Nothing is written in either case. *)
Theorem C1_existence_then_ownership
    (w : World) (projectId requester role : string)
    (input : UpdateProjectInput) (body : Json)
    (schema : Json -> Outcome UpdateProjectInput) :
  schema body = Returned input ->
  let req := asUser requester role projectId body in
  (projects w !! projectId = None ->
     failsWith Errors.NOT_FOUND (getProjectById projectId requester w) w
     /\ failsWith Errors.NOT_FOUND
          (updateProject projectId requester input w) w
     /\ failsWith Errors.NOT_FOUND (deleteProject projectId requester w) w
     /\ rejects Errors.NOT_FOUND (ProjectsController.getById req w) w
     /\ rejects Errors.NOT_FOUND (ProjectsController.update schema req w) w
     /\ rejects Errors.NOT_FOUND (ProjectsController.remove req w) w)
  /\ (forall p,
        projects w !! projectId = Some p ->
        Project.ownerId p <> requester ->
        failsWith Errors.FORBIDDEN (getProjectById projectId requester w) w
        /\ failsWith Errors.FORBIDDEN
             (updateProject projectId requester input w) w
        /\ failsWith Errors.FORBIDDEN (deleteProject projectId requester w) w
        /\ rejects Errors.FORBIDDEN (ProjectsController.getById req w) w
        /\ rejects Errors.FORBIDDEN
             (ProjectsController.update schema req w) w
        /\ rejects Errors.FORBIDDEN (ProjectsController.remove req w) w).
Proof.
  intros Hschema req.
  assert (Hctl : forall k,
    failsWith k (getProjectById projectId requester w) w ->
    failsWith k (updateProject projectId requester input w) w ->
    failsWith k (deleteProject projectId requester w) w ->
    rejects k (ProjectsController.getById req w) w
    /\ rejects k (ProjectsController.update schema req w) w
    /\ rejects k (ProjectsController.remove req w) w).
  { intros k [m1 H1] [m2 H2] [m3 H3]. split; [|split].
    all: apply respond_failsWith; cbn; unfold bind, parse.
    - rewrite H1. now exists m1.
    - rewrite Hschema, H2. now exists m2.
    - rewrite H3. now exists m3. }
  split.
  - intros Hnone.
    pose proof (getProjectById_missing w projectId requester Hnone) as G.
    pose proof (updateProject_missing w projectId requester input Hnone) as U.
    pose proof (deleteProject_missing w projectId requester Hnone) as D.
    destruct (Hctl _ G U D) as (? & ? & ?). auto 10.
  - intros p Hsome Hne.
    pose proof (getProjectById_foreign w projectId requester p Hsome Hne) as G.
    pose proof (updateProject_foreign w projectId requester p Hsome input Hne)
      as U.
    pose proof (deleteProject_foreign w projectId requester p Hsome Hne) as D.
    destruct (Hctl _ G U D) as (? & ? & ?). auto 10.
Qed.

Lemma C1_existence_then_ownership_witness :
  failsWith Errors.NOT_FOUND (deleteProject "p-404" "u-bob" demoWorld) demoWorld
  /\ rejects Errors.FORBIDDEN
       (ProjectsController.update demoUpdateProjectSchema
          (asUser "u-bob" "user" "p-1" (JObj [("status", JStr "done")]))
          demoWorld)
       demoWorld.
Proof.
  split.
  - apply (C1_existence_then_ownership demoWorld "p-404" "u-bob" "user"
             (mkUpdateProjectInput None None (Some done))
             (JObj [("status", JStr "done")]) demoUpdateProjectSchema
             eq_refl).
    reflexivity.
  - apply (C1_existence_then_ownership demoWorld "p-1" "u-bob" "user"
             (mkUpdateProjectInput None None (Some done))
             (JObj [("status", JStr "done")]) demoUpdateProjectSchema
             eq_refl)
      with (p := aliceProject).
    + reflexivity.
    + discriminate.
Defined.

(** C2. UpdateProject on an existing project by its owner returns the
    stored record after the patch: a supplied title, description or status
    is written, an omitted one keeps its prior value, and the identifier,
    the owner and the creation time are never touched.  So a patch with
    only a status leaves title and description as they were. *)
Theorem C2_partial_update
    (w : World) (projectId requester : string) (input : UpdateProjectInput)
    (p : Project.t) :
  projects w !! projectId = Some p ->
  Project.ownerId p = requester ->
  exists p',
    updateProject projectId requester input w
    = (Returned p', setProjects (<[projectId := p']> (projects w)) w)
    /\ (forall t, up_title input = Some t -> Project.title p' = t)
    /\ (up_title input = None -> Project.title p' = Project.title p)
    /\ (forall d, up_description input = Some d ->
          Project.description p' = Some d)
    /\ (up_description input = None ->
          Project.description p' = Project.description p)
    /\ (forall s, up_status input = Some s ->
          Project.status p' = statusText s)
    /\ (up_status input = None -> Project.status p' = Project.status p)
    /\ Project.id p' = Project.id p
    /\ Project.ownerId p' = Project.ownerId p
    /\ Project.createdAt p' = Project.createdAt p.
Proof.
  intros Hfound Hown.
  rewrite (updateProject_owned w projectId requester p Hfound input Hown).
  unfold Prisma.project_update. rewrite Hfound.
  eexists. split; [reflexivity|].
  destruct input as [t d s]; cbn.
  repeat apply conj; try reflexivity; intros; subst; try reflexivity;
    match goal with H : _ = Some _ |- _ => rewrite H end; reflexivity.
Qed.

Lemma C2_partial_update_witness :
  exists p',
    updateProject "p-1" "u-alice" (mkUpdateProjectInput None None (Some doing))
      demoWorld
    = (Returned p', setProjects (<["p-1" := p']> (projects demoWorld)) demoWorld)
    /\ Project.title p' = "Write the report"
    /\ Project.description p' = Some "Quarterly numbers"
    /\ Project.status p' = "doing".
Proof.
  destruct (C2_partial_update demoWorld "p-1" "u-alice"
              (mkUpdateProjectInput None None (Some doing)) aliceProject
              eq_refl eq_refl)
    as (p' & Hrun & _ & Ht & _ & Hd & Hs & _).
  exists p'. repeat apply conj.
  - exact Hrun.
  - exact (Ht eq_refl).
  - exact (Hd eq_refl).
  - exact (Hs doing eq_refl).
Defined.

(** ** Auth service *)

Section AuthServiceFacts.
Context {W : Type} (deps : AuthServiceDeps W).

Lemma login_unknown_email input w w' :
  findByEmail (userRepo deps) (li_email input) w = (Returned None, w') ->
  AuthService.login deps input w
  = (Threw (appError Errors.UNAUTHORIZED "Invalid email or password."), w').
Proof.
  intros H. unfold AuthService.login. now rewrite (bind_returned _ _ _ _ _ H).
Qed.

Lemma login_wrong_password input w w' w'' u :
  findByEmail (userRepo deps) (li_email input) w = (Returned (Some u), w') ->
  compare (passwordHasher deps) (li_password input) (User.passwordHash u) w'
  = (Returned false, w'') ->
  AuthService.login deps input w
  = (Threw (appError Errors.UNAUTHORIZED "Invalid email or password."), w'').
Proof.
  intros H1 H2. unfold AuthService.login.
  rewrite (bind_returned _ _ _ _ _ H1).
  now rewrite (bind_returned _ _ _ _ _ H2).
Qed.

Lemma register_existing_email input w w' existing :
  findByEmail (userRepo deps) (ri_email input) w
  = (Returned (Some existing), w') ->
  AuthService.register deps input w
  = (Threw (appError Errors.CONFLICT
              "A user with this email already exists."), w').
Proof.
  intros H. unfold AuthService.register.
  now rewrite (bind_returned _ _ _ _ _ H).
Qed.

Lemma register_create_threw input w w1 w2 w3 passwordHash e :
  findByEmail (userRepo deps) (ri_email input) w = (Returned None, w1) ->
  hash (passwordHasher deps) (ri_password input) w1
  = (Returned passwordHash, w2) ->
  create (userRepo deps)
    (Prisma.mkUserCreate (ri_name input) (ri_email input) passwordHash "user")
    w2 = (Threw e, w3) ->
  AuthService.register deps input w = (Threw e, w3).
Proof.
  intros H1 H2 H3. unfold AuthService.register.
  rewrite (bind_returned _ _ _ _ _ H1).
  rewrite (bind_returned _ _ _ _ _ H2).
  now rewrite (bind_threw _ _ _ _ _ H3).
Qed.





End AuthServiceFacts.

(** C3. Login with an email that resolves to no user, and login with an
    email that resolves to a user whose stored hash does not match the
    password, fail with the same error and produce the same response:
    status 401, code UNAUTHORIZED, message "Invalid email or password.". *)
Theorem C3_login_failures_identical {W : Type}
    (deps : AuthServiceDeps W) (loginSchema : Json -> Outcome LoginInput)
    (req1 req2 : Request.t) (input1 input2 : LoginInput)
    (w1 w1' w2 w2' w2'' : W) (u : User.t) :
  loginSchema (Request.body req1) = Returned input1 ->
  findByEmail (userRepo deps) (li_email input1) w1 = (Returned None, w1') ->
  loginSchema (Request.body req2) = Returned input2 ->
  findByEmail (userRepo deps) (li_email input2) w2 = (Returned (Some u), w2') ->
  compare (passwordHasher deps) (li_password input2) (User.passwordHash u) w2'
  = (Returned false, w2'') ->
  let unauthorized :=
    sendError "UNAUTHORIZED" "Invalid email or password." 401 None in
  (AuthService.login deps input1 w1).1 = (AuthService.login deps input2 w2).1
  /\ (AuthService.login deps input1 w1).1
     = Threw (appError Errors.UNAUTHORIZED "Invalid email or password.")
  /\ (AuthController.login deps loginSchema req1 w1).1
     = (AuthController.login deps loginSchema req2 w2).1
  /\ (AuthController.login deps loginSchema req1 w1).1 = unauthorized.
Proof.
  intros Hs1 Hf1 Hs2 Hf2 Hc unauthorized.
  pose proof (login_unknown_email deps input1 w1 w1' Hf1) as L1.
  pose proof (login_wrong_password deps input2 w2 w2' w2'' u Hf2 Hc) as L2.
  assert (C1 : (AuthController.login deps loginSchema req1 w1).1 = unauthorized).
  { unfold AuthController.login, respond, bind, parse.
    rewrite Hs1, L1. reflexivity. }
  assert (C2 : (AuthController.login deps loginSchema req2 w2).1 = unauthorized).
  { unfold AuthController.login, respond, bind, parse.
    rewrite Hs2, L2. reflexivity. }
  rewrite L1, L2, C1, C2. auto.
Qed.

Lemma C3_login_failures_identical_witness :
  (AuthController.login demoDeps demoLoginSchema
     (anonymous (JObj [("email", JStr "nobody@example.com");
                       ("password", JStr "User@1234")])) demoWorld).1
  = (AuthController.login demoDeps demoLoginSchema
       (anonymous (JObj [("email", JStr "alice@example.com");
                         ("password", JStr "not-her-password")])) demoWorld).1.
Proof.
  refine (proj1 (proj2 (proj2
    (C3_login_failures_identical demoDeps demoLoginSchema
       (anonymous (JObj [("email", JStr "nobody@example.com");
                         ("password", JStr "User@1234")]))
       (anonymous (JObj [("email", JStr "alice@example.com");
                         ("password", JStr "not-her-password")]))
       (mkLoginInput "nobody@example.com" "User@1234")
       (mkLoginInput "alice@example.com" "not-her-password")
       demoWorld demoWorld demoWorld demoWorld demoWorld alice
       eq_refl eq_refl eq_refl eq_refl eq_refl)))).
Defined.

(** ** Registration on the store *)

Lemma find_app_none {A} (f : A -> bool) (l l' : list A) :
  find f l = None -> find f (l ++ l') = find f l'.
Proof.
  induction l as [|a l IH]; cbn; [reflexivity|].
  destruct (f a); [discriminate | exact IH].
Qed.

(** After a registration has succeeded, its email resolves to a user. *)
Lemma register_then_email_taken bcrypt codec env input w r w1 :
  AuthService.register (defaultDeps bcrypt codec env) input w
  = (Returned r, w1) ->
  exists u, Prisma.user_findByEmail (ri_email input) w1 = (Returned (Some u), w1).
Proof.
  unfold AuthService.register, bind; cbn.
  unfold Prisma.user_findByEmail at 1.
  destruct (find _ (users w)) eqn:Hfind; [discriminate|].
  unfold ret at 1, Prisma.user_create; cbn.
  destruct (existsb _ (users w)); [discriminate|].
  destruct (existsb _ (users w)); [discriminate|].
  unfold ret. intros H. inversion H; subst; clear H.
  unfold Prisma.user_findByEmail; cbn.
  rewrite (find_app_none _ _ _ Hfind). cbn.
  rewrite String.eqb_refl. eauto.
Qed.

(** C4. Register fails with CONFLICT when the look-up made before the
    insert finds the email; a uniqueness violation (P2002) thrown by the
    store at the insert, after a look-up that found nothing, is answered
    with CONFLICT as well; and on the store, once a registration has
    succeeded, a second one with the same email fails with CONFLICT
    whatever its name and password. *)
Theorem C4_register_conflict :
  (forall (W : Type) (deps : AuthServiceDeps W)
          (schema : Json -> Outcome RegisterInput) (req : Request.t)
          (input : RegisterInput) (w w' : W) (existing : User.t),
      schema (Request.body req) = Returned input ->
      findByEmail (userRepo deps) (ri_email input) w
      = (Returned (Some existing), w') ->
      failsWith Errors.CONFLICT (AuthService.register deps input w) w'
      /\ rejects Errors.CONFLICT (AuthController.register deps schema req w) w')
  /\ (forall (W : Type) (deps : AuthServiceDeps W)
             (schema : Json -> Outcome RegisterInput) (req : Request.t)
             (input : RegisterInput) (w w1 w2 w3 : W)
             (passwordHash message : string) (target : option (list string)),
         schema (Request.body req) = Returned input ->
         findByEmail (userRepo deps) (ri_email input) w = (Returned None, w1) ->
         hash (passwordHasher deps) (ri_password input) w1
         = (Returned passwordHash, w2) ->
         create (userRepo deps)
           (Prisma.mkUserCreate (ri_name input) (ri_email input) passwordHash
              "user") w2
         = (Threw (OtherError "PrismaClientKnownRequestError" message
                     (Some "P2002") target), w3) ->
         rejects Errors.CONFLICT (AuthController.register deps schema req w) w3)
  /\ (forall (bcrypt : Bcrypt) (codec : TokenCodec) (env : Env)
             (first second : RegisterInput) (w w1 : World) (r : Json),
         AuthService.register (defaultDeps bcrypt codec env) first w
         = (Returned r, w1) ->
         ri_email second = ri_email first ->
         failsWith Errors.CONFLICT
           (AuthService.register (defaultDeps bcrypt codec env) second w1) w1).
Proof.
  split; [|split].
  - intros W deps schema req input w w' existing Hs Hf.
    pose proof (register_existing_email deps input w w' existing Hf) as R.
    split.
    + eexists. exact R.
    + unfold AuthController.register, respond, bind, parse.
      rewrite Hs, R. apply rejects_sendError.
  - intros W deps schema req input w w1 w2 w3 passwordHash message target
      Hs Hf Hh Hc.
    pose proof (register_create_threw deps input w w1 w2 w3 _ _ Hf Hh Hc) as R.
    unfold AuthController.register, respond, bind, parse.
    rewrite Hs, R. apply rejects_sendError.
  - intros bcrypt codec env first second w w1 r Hreg Hemail.
    destruct (register_then_email_taken _ _ _ _ _ _ _ Hreg) as [u Hu].
    rewrite <- Hemail in Hu.
    eexists.
    apply (register_existing_email (defaultDeps bcrypt codec env) second
             w1 w1 u Hu).
Qed.

Lemma C4_register_conflict_witness :
  rejects Errors.CONFLICT
    (AuthController.register demoDeps demoRegisterSchema
       (anonymous (JObj [("name", JStr "Alice again");
                         ("email", JStr "alice@example.com");
                         ("password", JStr "Another@1234")])) demoWorld)
    demoWorld
  /\ statusCode
       (AuthController.register
          (mkAuthServiceDeps World
             (racingUserRepo
                (Prisma.mkUserCreate "Carol" "carol@example.com" "h" "user"))
             (bcryptHasher demoBcrypt) (jwtTokenSigner demoCodec demoEnv))
          demoRegisterSchema (anonymous (carolBody "Carla" "Carla@1234"))
          demoWorld).1 = 409
  /\ failsWith Errors.CONFLICT
       (AuthService.register demoDeps
          (mkRegisterInput "Carla" "carol@example.com" "Carla@1234")
          (AuthService.register demoDeps
             (mkRegisterInput "Carol" "carol@example.com" "Carol@1234")
             demoWorld).2)
       (AuthService.register demoDeps
          (mkRegisterInput "Carol" "carol@example.com" "Carol@1234")
          demoWorld).2.
Proof.
  destruct C4_register_conflict as (Hlookup & Hrace & Htwice).
  split; [|split].
  - apply (Hlookup World demoDeps demoRegisterSchema
             (anonymous (JObj [("name", JStr "Alice again");
                               ("email", JStr "alice@example.com");
                               ("password", JStr "Another@1234")]))
             (mkRegisterInput "Alice again" "alice@example.com" "Another@1234")
             demoWorld demoWorld alice eq_refl eq_refl).
  - eapply (Hrace World
              (mkAuthServiceDeps World
                 (racingUserRepo
                    (Prisma.mkUserCreate "Carol" "carol@example.com" "h"
                       "user"))
                 (bcryptHasher demoBcrypt) (jwtTokenSigner demoCodec demoEnv))
              demoRegisterSchema
              (anonymous (carolBody "Carla" "Carla@1234"))
              (mkRegisterInput "Carla" "carol@example.com" "Carla@1234")
              demoWorld demoWorld demoWorld).
    + reflexivity.
    + reflexivity.
    + reflexivity.
    + vm_compute. reflexivity.
  - eapply (Htwice demoBcrypt demoCodec demoEnv
              (mkRegisterInput "Carol" "carol@example.com" "Carol@1234")
              (mkRegisterInput "Carla" "carol@example.com" "Carla@1234")
              demoWorld).
    + vm_compute. reflexivity.
    + reflexivity.
Defined.



(** ** The authorization gate *)

Lemma substring_all (s : string) : String.substring 0 (String.length s) s = s.
Proof. induction s as [|c s IH]; cbn; [reflexivity | now rewrite IH]. Qed.

Lemma substringFrom_bearer (token : string) :
  substringFrom 7 ("Bearer " ++ token) = token.
Proof.
  unfold substringFrom. cbn [String.append String.length String.substring].
  change (String.substring 0 (String.length token - 0) token = token).
  rewrite Nat.sub_0_r. apply substring_all.
Qed.

Lemma bearer_not_empty (token : string) :
  String.eqb ("Bearer " ++ token) "" || negb (String.prefix "Bearer " ("Bearer " ++ token))
  = false.
Proof.
  cbn. destruct token; reflexivity.
Qed.

Section Authenticate.
Variables (codec : TokenCodec) (env : Env) (req : Request.t) (w : World).

Lemma authenticate_absent :
  Request.authorization req = None ->
  authenticate codec env req w = Sent credentialsRequired.
Proof. intros H. unfold authenticate. now rewrite H. Qed.

Lemma authenticate_malformed h :
  Request.authorization req = Some h ->
  String.prefix "Bearer " h = false ->
  authenticate codec env req w = Sent credentialsRequired.
Proof.
  intros H Hp. unfold authenticate. rewrite H, Hp.
  now rewrite orb_true_r.
Qed.

Lemma authenticate_verify token :
  Request.authorization req = Some ("Bearer " ++ token) ->
  authenticate codec env req w
  = match jwt_verify codec token (jwtSecret env) (clock w) with
    | Returned claim => Next (Request.setUser claim req)
    | Threw _ => Sent tokenRejected
    end.
Proof.
  intros H. unfold authenticate. rewrite H, bearer_not_empty.
  now rewrite substringFrom_bearer.
Qed.

Lemma authenticate_sent res :
  authenticate codec env req w = Sent res ->
  res = credentialsRequired \/ res = tokenRejected.
Proof.
  unfold authenticate.
  destruct (Request.authorization req) as [h|].
  - destruct (_ || _).
    + intros [= <-]. now left.
    + destruct (jwt_verify _ _ _ _); [discriminate|].
      intros [= <-]. now right.
  - intros [= <-]. now left.
Qed.

End Authenticate.

(** C6 as stated fails: a request without a header and a request with a
    well-formed header whose token does not verify receive the same code
    and status, but different messages, so the response tells the two
    sub-conditions apart. *)
Lemma C6_authenticate_counterexample :
  authenticate demoCodec demoEnv (anonymous JNull) demoWorld
  = Sent credentialsRequired
  /\ authenticate demoCodec demoEnv (bearer "not-a-token" "") demoWorld
     = Sent tokenRejected
  /\ errorMessage credentialsRequired
     = Some (JStr "Authentication required. Please provide a valid Bearer token.")
  /\ errorMessage tokenRejected = Some (JStr "Invalid or expired token.")
  /\ credentialsRequired <> tokenRejected.
Proof.
  repeat apply conj; try reflexivity. discriminate.
Qed.

(** C6, amended. Every failure of the authentication check is a 401 with
    code UNAUTHORIZED.  An absent header and a header that does not start
    with "Bearer " receive one and the same response; a token that fails
    verification receives one and the same response whatever the reason of
    the failure; the two responses differ in their message only.  When the
    token verifies, the decoded claim is attached to the request, which is
    passed on. *)
Theorem C6_authenticate_unauthorized
    (codec : TokenCodec) (env : Env) (req : Request.t) (w : World) :
  (Request.authorization req = None ->
     authenticate codec env req w = Sent credentialsRequired)
  /\ (forall h,
        Request.authorization req = Some h ->
        String.prefix "Bearer " h = false ->
        authenticate codec env req w = Sent credentialsRequired)
  /\ (forall token e,
        Request.authorization req = Some ("Bearer " ++ token) ->
        jwt_verify codec token (jwtSecret env) (clock w) = Threw e ->
        authenticate codec env req w = Sent tokenRejected)
  /\ (forall token claim,
        Request.authorization req = Some ("Bearer " ++ token) ->
        jwt_verify codec token (jwtSecret env) (clock w) = Returned claim ->
        authenticate codec env req w = Next (Request.setUser claim req)
        /\ Request.user (Request.setUser claim req) = Some claim)
  /\ (forall res,
        authenticate codec env req w = Sent res ->
        statusCode res = Errors.status Errors.UNAUTHORIZED
        /\ errorCode res = Some (JStr (Errors.code Errors.UNAUTHORIZED))).
Proof.
  repeat apply conj.
  - apply authenticate_absent.
  - apply authenticate_malformed.
  - intros token e H Hv. rewrite (authenticate_verify _ _ _ _ _ H).
    now rewrite Hv.
  - intros token claim H Hv. rewrite (authenticate_verify _ _ _ _ _ H).
    now rewrite Hv.
  - intros res H.
    destruct (authenticate_sent _ _ _ _ _ H) as [-> | ->]; now split.
Qed.

Lemma C6_authenticate_unauthorized_witness :
  authenticate demoCodec demoEnv (bearer "u-root.admin.86405.forged" "p-1")
    demoWorld = Sent tokenRejected
  /\ authenticate demoCodec demoEnv (bearer rootToken "p-1") demoWorld
     = Next (Request.setUser (JwtPayload.mk "u-root" "admin")
               (bearer rootToken "p-1")).
Proof.
  split.
  - apply (C6_authenticate_unauthorized demoCodec demoEnv
             (bearer "u-root.admin.86405.forged" "p-1") demoWorld)
      with (token := "u-root.admin.86405.forged")
           (e := jwtError "JsonWebTokenError" "invalid signature");
      reflexivity.
  - apply (C6_authenticate_unauthorized demoCodec demoEnv
             (bearer rootToken "p-1") demoWorld)
      with (token := rootToken); reflexivity.
Defined.

(** ** The role check and the admin surface *)

Lemma adminDeleteProject_found (w : World) (projectId : string) (p : Project.t) :
  projects w !! projectId = Some p ->
  adminDeleteProject projectId w
  = (Returned tt, setProjects (delete projectId (projects w)) w).
Proof.
  intros H.
  unfold adminDeleteProject, bind, Prisma.project_findUnique,
    Prisma.project_delete.
  now rewrite H, H.
Qed.

Lemma adminDeleteProject_missing (w : World) (projectId : string) :
  projects w !! projectId = None ->
  failsWith Errors.NOT_FOUND (adminDeleteProject projectId w) w.
Proof.
  intros H. eexists.
  unfold adminDeleteProject, bind, Prisma.project_findUnique.
  now rewrite H.
Qed.

(** C7. The role check answers UNAUTHORIZED when no claim is attached and
    FORBIDDEN when the attached claim's role is not "admin"; with an admin
    claim it passes the request on, and the admin deletion then checks
    existence only: NOT_FOUND when the id resolves to nothing, and
    otherwise the project is removed, whoever owns it. *)
Theorem C7_admin_only (req : Request.t) (w : World) :
  (Request.user req = None ->
     requireAdmin req w
     = Sent (sendError "UNAUTHORIZED" "Authentication required." 401 None))
  /\ (forall claim,
        Request.user req = Some claim ->
        JwtPayload.role claim <> "admin" ->
        requireAdmin req w
        = Sent (sendError "FORBIDDEN" "Admin access required." 403 None))
  /\ (forall claim,
        Request.user req = Some claim ->
        JwtPayload.role claim = "admin" ->
        requireAdmin req w = Next req
        /\ (projects w !! Request.params_id req = None ->
              failsWith Errors.NOT_FOUND
                (adminDeleteProject (Request.params_id req) w) w
              /\ rejects Errors.NOT_FOUND
                   (route requireAdmin AdminController.deleteProject req w) w)
        /\ (forall p,
              projects w !! Request.params_id req = Some p ->
              let w' :=
                setProjects (delete (Request.params_id req) (projects w)) w in
              adminDeleteProject (Request.params_id req) w = (Returned tt, w')
              /\ route requireAdmin AdminController.deleteProject req w
                 = (sendSuccess deletedMessage 200, w')
              /\ projects w' !! Request.params_id req = None))
  /\ (forall codec env token claim,
        Request.authorization req = Some ("Bearer " ++ token) ->
        jwt_verify codec token (jwtSecret env) (clock w) = Returned claim ->
        (JwtPayload.role claim <> "admin" ->
           rejects Errors.FORBIDDEN (adminDeleteRoute codec env req w) w)
        /\ (JwtPayload.role claim = "admin" ->
              forall p,
                projects w !! Request.params_id req = Some p ->
                adminDeleteRoute codec env req w
                = (sendSuccess deletedMessage 200,
                   setProjects (delete (Request.params_id req) (projects w))
                     w))).
Proof.
  repeat apply conj.
  - intros H. unfold requireAdmin. now rewrite H.
  - intros claim H Hrole. apply String.eqb_neq in Hrole.
    unfold requireAdmin. now rewrite H, Hrole.
  - intros claim H Hrole. apply String.eqb_eq in Hrole.
    assert (Hgate : requireAdmin req w = Next req).
    { unfold requireAdmin. now rewrite H, Hrole. }
    split; [exact Hgate|]. split.
    + intros Hnone.
      pose proof (adminDeleteProject_missing w _ Hnone) as [m Hm].
      split; [now exists m|].
      unfold route. rewrite Hgate.
      apply respond_failsWith. unfold bind. rewrite Hm. now exists m.
    + intros p Hsome w'.
      pose proof (adminDeleteProject_found w _ p Hsome) as Hd.
      split; [exact Hd|]. split.
      * unfold route. rewrite Hgate.
        unfold AdminController.deleteProject, respond, bind.
        now rewrite Hd.
      * apply lookup_delete_eq.
  - intros codec env token claim Hauth Hverify.
    assert (Hgate : adminGate codec env req w
                    = requireAdmin (Request.setUser claim req) w).
    { unfold adminGate, andThen.
      rewrite (authenticate_verify _ _ _ _ _ Hauth). now rewrite Hverify. }
    unfold adminDeleteRoute, route. rewrite Hgate. unfold requireAdmin.
    change (Request.user (Request.setUser claim req)) with (Some claim).
    cbv beta iota.
    split; intros Hrole.
    + apply String.eqb_neq in Hrole. rewrite Hrole. cbn [negb].
      apply rejects_sendError.
    + apply String.eqb_eq in Hrole. rewrite Hrole. cbn [negb]. intros p Hsome.
      unfold AdminController.deleteProject, respond, bind.
      change (Request.params_id (Request.setUser claim req))
        with (Request.params_id req).
      now rewrite (adminDeleteProject_found w _ p Hsome).
Qed.

Lemma C7_admin_only_witness :
  route requireAdmin AdminController.deleteProject
    (asUser "u-root" "admin" "p-1" JNull) demoWorld
  = (sendSuccess deletedMessage 200,
     setProjects (delete "p-1" (projects demoWorld)) demoWorld)
  /\ requireAdmin (asUser "u-bob" "user" "p-1" JNull) demoWorld
     = Sent (sendError "FORBIDDEN" "Admin access required." 403 None).
Proof.
  split.
  - apply (C7_admin_only (asUser "u-root" "admin" "p-1" JNull) demoWorld)
      with (claim := JwtPayload.mk "u-root" "admin") (p := aliceProject);
      reflexivity.
  - apply (C7_admin_only (asUser "u-bob" "user" "p-1" JNull) demoWorld)
      with (claim := JwtPayload.mk "u-bob" "user");
      [reflexivity | discriminate].
Defined.

(** ** Statelessness of the gate *)




(** ** The rate limiter *)

Section RateLimit.
Variables (windowMs maxRequests : Z).
Implicit Types (store : gmap string RateLimitEntry) (req : Request.t).

Lemma rateLimit_in_window req now store e :
  store !! clientKeyOf req = Some e ->
  now <= resetTime e ->
  rateLimit windowMs maxRequests req now store
  = (answer maxRequests req (count e + 1) (resetTime e),
     <[clientKeyOf req := mkEntry (count e + 1) (resetTime e)]> store).
Proof.
  intros Hlook Hle. unfold rateLimit, answer. rewrite Hlook.
  assert ((now >? resetTime e) = false) as -> by lia.
  cbn. now destruct (_ >? _).
Qed.

Lemma rateLimit_new_window req now store :
  (store !! clientKeyOf req = None
   \/ exists e, store !! clientKeyOf req = Some e /\ resetTime e < now) ->
  rateLimit windowMs maxRequests req now store
  = (answer maxRequests req 1 (now + windowMs),
     <[clientKeyOf req := mkEntry 1 (now + windowMs)]> store).
Proof.
  intros [Hnone | (e & Hlook & Hlt)]; unfold rateLimit, answer.
  - rewrite Hnone. cbn. rewrite insert_insert_eq. now destruct (_ >? _).
  - rewrite Hlook.
    assert ((now >? resetTime e) = true) as -> by lia.
    cbn. rewrite insert_insert_eq. now destruct (_ >? _).
Qed.

(** A request never touches the entry of another client. *)
Lemma rateLimit_other_key req now store key :
  clientKeyOf req <> key ->
  (rateLimit windowMs maxRequests req now store).2 !! key = store !! key.
Proof.
  intros Hne. unfold rateLimit.
  destruct (store !! clientKeyOf req) as [e|];
    [destruct (now >? resetTime e)|]; cbn;
    destruct (_ >? maxRequests); cbn;
    now rewrite ?lookup_insert_ne by exact Hne.
Qed.

End RateLimit.

(** The clean-up keeps every entry whose window is still open. *)
Lemma sweep_in_window now (store : gmap string RateLimitEntry) key e :
  store !! key = Some e -> now <= resetTime e ->
  sweep now store !! key = Some e.
Proof.
  intros Hlook Hle. unfold sweep.
  apply map_lookup_filter_Some. split; [exact Hlook|]. cbn. lia.
Qed.

Lemma serve_hit req now rest (store : gmap string RateLimitEntry) :
  (serve (Hit req now :: rest) store).1
  = (clientKeyOf req, gate (authRateLimit req now store).1)
    :: (serve rest (authRateLimit req now store).2).1.
Proof.
  cbn. destruct (authRateLimit req now store) as [limited store1].
  cbn. now destruct (serve rest store1).
Qed.

Lemma decisionsFor_cons_same key g ds :
  decisionsFor key ((key, g) :: ds) = g :: decisionsFor key ds.
Proof. unfold decisionsFor. now rewrite filter_cons_True. Qed.

Lemma decisionsFor_cons_other key key' g ds :
  key' <> key -> decisionsFor key ((key', g) :: ds) = decisionsFor key ds.
Proof. intros H. unfold decisionsFor. now rewrite filter_cons_False. Qed.

(** While the window of [key] is open, its requests are counted one by
    one from the count the window has reached, and admitted exactly as
    long as the count stays within 20. *)
Lemma serve_in_window key events :
  forall (store : gmap string RateLimitEntry) e,
    store !! key = Some e ->
    (forall ev, ev ∈ events -> eventTime ev <= resetTime e) ->
    forall (i : nat) g,
      decisionsFor key (serve events store).1 !! i = Some g ->
      (count e + Z.of_nat i + 1 <= 20 -> exists req, g = Next req)
      /\ (20 < count e + Z.of_nat i + 1 -> g = Sent tooManyRequests).
Proof.
  induction events as [|[req now | now] rest IH]; intros store e Hlook Htime i g.
  - cbn. intros H. discriminate H.
  - rewrite serve_hit.
    assert (Hnow : now <= resetTime e)
      by (apply (Htime (Hit req now)); left).
    assert (Hrest : forall e', resetTime e' = resetTime e ->
              forall ev, ev ∈ rest -> eventTime ev <= resetTime e').
    { intros e' -> ev Hin. apply Htime. now right. }
    destruct (decide (clientKeyOf req = key)) as [<- | Hne].
    + unfold authRateLimit.
      rewrite (rateLimit_in_window _ _ _ _ _ _ Hlook Hnow).
      rewrite decisionsFor_cons_same.
      destruct i as [|j]; cbn [lookup list_lookup].
      * intros [= <-]. cbn.
        destruct (Z.gtb_spec (count e + 1) 20); split; intros; eauto; lia.
      * intros Hj.
        eapply (IH _ (mkEntry (count e + 1) (resetTime e))) in Hj.
        -- cbn in Hj. destruct Hj as [Hj1 Hj2]. split; intros.
           ++ apply Hj1. lia.
           ++ apply Hj2. lia.
        -- cbn. apply lookup_insert_eq.
        -- apply Hrest. reflexivity.
    + rewrite decisionsFor_cons_other by exact Hne.
      apply IH.
      * unfold authRateLimit. now rewrite rateLimit_other_key.
      * apply Hrest. reflexivity.
  - cbn [serve]. apply IH.
    + apply sweep_in_window; [exact Hlook|].
      apply (Htime (Sweep now)). left.
    + intros ev Hin. apply Htime. now right.
Qed.

(** When every decision from position [n] on is a rejection, at most [n]
    requests were admitted. *)
Lemma admitted_at_most (n : nat) (ds : list Gate) :
  (forall (i : nat) g, ds !! i = Some g -> (n <= i)%nat -> admitted g = false) ->
  (length (filter (fun g => admitted g = true) ds) <= n)%nat.
Proof.
  revert n. induction ds as [|g ds IH]; intros n Hrej; [cbn; lia|].
  destruct (admitted g) eqn:Hg.
  - rewrite filter_cons_True by exact Hg.
    destruct n as [|m].
    + specialize (Hrej 0%nat g eq_refl (Nat.le_refl 0)). congruence.
    + cbn. apply le_n_S, IH. intros i g' Hi Hle.
      apply (Hrej (S i) g' Hi). lia.
  - rewrite filter_cons_False by congruence.
    apply IH. intros i g' Hi Hle. apply (Hrej (S i) g' Hi). lia.
Qed.

(** C9. The limiter of /auth/register and /auth/login allows 20 requests
    per client key and 15-minute window.  A window opens with a request of
    a client that has no entry, or whose entry's reset time has passed:
    whatever the old count was, that request is counted as the first.  Of
    the requests of that client up to the reset time, the first 20 are
    passed on to the handler and every later one is answered with status
    429 and code RATE_LIMIT_EXCEEDED, so at most 20 are admitted, whatever
    other clients send and whenever the clean-up runs in between. *)
Theorem C9_auth_rate_limit
    (store : gmap string RateLimitEntry) (first : Request.t) (t0 : Z)
    (events : list Event) :
  let key := clientKeyOf first in
  let reset := t0 + 15 * 60 * 1000 in
  (store !! key = None
   \/ exists e, store !! key = Some e /\ resetTime e < t0) ->
  (forall ev, ev ∈ events -> eventTime ev <= reset) ->
  (authRateLimit first t0 store).2 !! key = Some (mkEntry 1 reset)
  /\ (forall (i : nat) g,
        decisionsFor key (serve (Hit first t0 :: events) store).1 !! i
        = Some g ->
        ((i < 20)%nat -> exists req, g = Next req)
        /\ ((20 <= i)%nat -> g = Sent tooManyRequests))
  /\ (length
        (filter (fun g => admitted g = true)
           (decisionsFor key (serve (Hit first t0 :: events) store).1))
      <= 20)%nat
  /\ statusCode tooManyRequests = 429
  /\ errorCode tooManyRequests = Some (JStr "RATE_LIMIT_EXCEEDED").
Proof.
  intros key reset Hopen Htime.
  pose proof (rateLimit_new_window (15 * 60 * 1000) 20 first t0 store Hopen)
    as Hfirst.
  fold (authRateLimit first t0 store) in Hfirst. fold key reset in Hfirst.
  assert (Hdecide : forall (i : nat) g,
    decisionsFor key (serve (Hit first t0 :: events) store).1 !! i = Some g ->
    ((i < 20)%nat -> exists req, g = Next req)
    /\ ((20 <= i)%nat -> g = Sent tooManyRequests)).
  { intros i g. rewrite serve_hit, Hfirst. fold key.
    rewrite decisionsFor_cons_same.
    destruct i as [|j]; cbn [lookup list_lookup].
    - intros [= <-]. cbn. split; [eauto | lia].
    - intros Hj.
      eapply (serve_in_window key events _ (mkEntry 1 reset)) in Hj.
      + cbn in Hj. destruct Hj as [Hj1 Hj2]. split; intros.
        * apply Hj1. lia.
        * apply Hj2. lia.
      + cbn. apply lookup_insert_eq.
      + exact Htime. }
  split; [|split; [exact Hdecide|split; [|split; reflexivity]]].
  - rewrite Hfirst. cbn. apply lookup_insert_eq.
  - apply admitted_at_most. intros i g Hi Hle.
    destruct (Hdecide i g Hi) as [_ Hsent]. now rewrite Hsent.
Qed.

Lemma C9_auth_rate_limit_witness :
  (authRateLimit (anonymous JNull) 1000 staleStore).2 !! "10.0.0.1"
  = Some (mkEntry 1 901000)
  /\ (exists req,
        decisionsFor "10.0.0.1"
          (serve (Hit (anonymous JNull) 1000 :: burst) staleStore).1 !! 19%nat
        = Some (Next req))
  /\ decisionsFor "10.0.0.1"
       (serve (Hit (anonymous JNull) 1000 :: burst) staleStore).1 !! 20%nat
     = Some (Sent tooManyRequests).
Proof.
  assert (Hopen : staleStore !! clientKeyOf (anonymous JNull) = None
                  \/ exists e, staleStore !! clientKeyOf (anonymous JNull)
                               = Some e /\ resetTime e < 1000).
  { right. exists (mkEntry 100 500). split; [reflexivity | cbn; lia]. }
  assert (Htime : forall ev, ev ∈ burst -> eventTime ev <= 1000 + 15 * 60 * 1000).
  { intros ev Hin. apply list_elem_of_In in Hin. cbn in Hin.
    repeat (destruct Hin as [<- | Hin]; [cbn; lia|]). destruct Hin. }
  destruct (C9_auth_rate_limit staleStore (anonymous JNull) 1000 burst
              Hopen Htime) as (Hentry & Hdecide & _).
  split; [exact Hentry|]. split.
  - destruct (decisionsFor "10.0.0.1"
                (serve (Hit (anonymous JNull) 1000 :: burst) staleStore).1
              !! 19%nat) as [g|] eqn:Hg.
    + destruct (Hdecide 19%nat g Hg) as [Hnext _].
      destruct Hnext as [req ->]; [lia|]. now exists req.
    + vm_compute in Hg. discriminate Hg.
  - destruct (decisionsFor "10.0.0.1"
                (serve (Hit (anonymous JNull) 1000 :: burst) staleStore).1
              !! 20%nat) as [g|] eqn:Hg.
    + destruct (Hdecide 20%nat g Hg) as [_ Hsent].
      now rewrite Hsent by lia.
    + vm_compute in Hg. discriminate Hg.
Defined.

(** ** Pagination parsing *)

Lemma parseLimit_absent : parseLimit None = Int 10.
Proof. reflexivity. Qed.

Lemma parseOffset_absent : parseOffset None = Int 0.
Proof. reflexivity. Qed.


(** C5 fails on a limit or offset without a leading digit: [parseInt]
    returns [NaN], which the clamps [Math.max] and [Math.min] hand on, so
    the parsed limit is not in [1, 50] and the parsed offset is not at
    least 0. *)
Theorem C5_pagination_nan :
  paginationSchema (mkQuery (Some "abc") (Some "abc"))
  = mkPaginationParams NaN NaN
  /\ between 1 50 (limit (paginationSchema (mkQuery (Some "abc") None)))
     = false
  /\ atLeast 0 (offset (paginationSchema (mkQuery None (Some "abc"))))
     = false
  /\ paginationSchema (mkQuery None (Some ""))
     = mkPaginationParams (Int 10) (Int 0)
  /\ paginationSchema (mkQuery (Some "500") (Some "-3"))
     = mkPaginationParams (Int 50) (Int 0).
Proof. repeat apply conj; reflexivity. Qed.

(** * Further properties *)

(** ** Project operations on the store *)

(** Each user-facing project operation, run by [requester], leaves every
    project owned by somebody else exactly as it was. *)
Theorem foreign_projects_untouched
    (w : World) (requester projectId : string) (input : UpdateProjectInput)
    (created : CreateProjectInput) (other : string) (p' : Project.t) :
  projects w !! other = Some p' ->
  Project.ownerId p' <> requester ->
  projects (getProjectById projectId requester w).2 !! other = Some p'
  /\ projects (updateProject projectId requester input w).2 !! other = Some p'
  /\ projects (deleteProject projectId requester w).2 !! other = Some p'
  /\ projects (createProject requester created w).2 !! other = Some p'.
Proof.
  intros Hother Hforeign.
  assert (Hfail : forall k (r : Outcome Project.t * World),
            failsWith k r w -> projects r.2 !! other = Some p').
  { intros k r [m ->]. exact Hother. }
  assert (Hfailu : forall k (r : Outcome unit * World),
            failsWith k r w -> projects r.2 !! other = Some p').
  { intros k r [m ->]. exact Hother. }
  destruct (projects w !! projectId) as [p|] eqn:Hp.
  - destruct (decide (Project.ownerId p = requester)) as [Hown | Hne].
    + assert (Hneq : projectId <> other).
      { intros ->. rewrite Hp in Hother. injection Hother as ->.
        contradiction. }
      repeat apply conj.
      * unfold getProjectById, bind, Prisma.project_findUnique.
        rewrite Hp. apply String.eqb_eq in Hown. rewrite Hown. exact Hother.
      * rewrite (updateProject_owned w projectId requester p Hp input Hown).
        unfold Prisma.project_update. rewrite Hp. cbn.
        now rewrite lookup_insert_ne.
      * unfold deleteProject, bind, Prisma.project_findUnique,
          Prisma.project_delete.
        rewrite Hp. apply String.eqb_eq in Hown. rewrite Hown. cbn.
        rewrite Hp. cbn. now rewrite lookup_delete_ne.
      * unfold createProject, Prisma.project_create.
        destruct (negb _); [exact Hother|].
        destruct (projects w !! Prisma.freshId w) eqn:Hfresh; [exact Hother|].
        cbn. rewrite lookup_insert_ne; [exact Hother|].
        intros Heq. rewrite Heq in Hfresh. congruence.
    + repeat apply conj.
      * eapply Hfail, getProjectById_foreign; eassumption.
      * eapply Hfail, updateProject_foreign; eassumption.
      * eapply Hfailu, deleteProject_foreign; eassumption.
      * unfold createProject, Prisma.project_create.
        destruct (negb _); [exact Hother|].
        destruct (projects w !! Prisma.freshId w) eqn:Hfresh; [exact Hother|].
        cbn. rewrite lookup_insert_ne; [exact Hother|].
        intros Heq. rewrite Heq in Hfresh. congruence.
  - repeat apply conj.
    + eapply Hfail, getProjectById_missing; eassumption.
    + eapply Hfail, updateProject_missing; eassumption.
    + eapply Hfailu, deleteProject_missing; eassumption.
    + unfold createProject, Prisma.project_create.
      destruct (negb _); [exact Hother|].
      destruct (projects w !! Prisma.freshId w) eqn:Hfresh; [exact Hother|].
      cbn. rewrite lookup_insert_ne; [exact Hother|].
      intros Heq. rewrite Heq in Hfresh. congruence.
Qed.

Lemma foreign_projects_untouched_witness :
  projects
    (updateProject "p-1" "u-bob" (mkUpdateProjectInput (Some "Mine now") None None)
       demoWorld).2 !! "p-1" = Some aliceProject
  /\ projects
       (createProject "u-bob" (mkCreateProjectInput "Bob's plan" None None)
          demoWorld).2 !! "p-1" = Some aliceProject.
Proof.
  split.
  - apply (foreign_projects_untouched demoWorld "u-bob" "p-1"
             (mkUpdateProjectInput (Some "Mine now") None None)
             (mkCreateProjectInput "Bob's plan" None None) "p-1" aliceProject
             eq_refl).
    discriminate.
  - apply (foreign_projects_untouched demoWorld "u-bob" "p-1"
             (mkUpdateProjectInput (Some "Mine now") None None)
             (mkCreateProjectInput "Bob's plan" None None) "p-1" aliceProject
             eq_refl).
    discriminate.
Defined.

(** A created project belongs to the caller, has status "todo" unless one
    was given, carries the given title and description, and is stamped
    with the time of creation; it is stored under a new identifier, where
    its owner finds it and any other requester is refused. *)
Theorem createProject_then_get
    (w w1 : World) (ownerId : string) (input : CreateProjectInput)
    (p : Project.t) :
  createProject ownerId input w = (Returned p, w1) ->
  Project.ownerId p = ownerId
  /\ Project.title p = cp_title input
  /\ Project.description p = cp_description input
  /\ Project.status p = from_option statusText "todo" (cp_status input)
  /\ Project.createdAt p = clock w
  /\ Project.updatedAt p = clock w
  /\ projects w !! Project.id p = None
  /\ getProjectById (Project.id p) ownerId w1 = (Returned p, w1)
  /\ (forall requester,
        requester <> ownerId ->
        failsWith Errors.FORBIDDEN
          (getProjectById (Project.id p) requester w1) w1).
Proof.
  unfold createProject, Prisma.project_create.
  destruct (negb _); [discriminate|].
  destruct (projects w !! Prisma.freshId w) eqn:Hfresh; [discriminate|].
  intros [= <- <-].
  set (p := Project.mk _ _ _ _ _ _ _).
  set (w1 := setIdSupply _ _).
  assert (Hlook : projects w1 !! Project.id p = Some p)
    by apply lookup_insert_eq.
  assert (Hget : forall requester,
    getProjectById (Project.id p) requester w1
    = if negb (String.eqb ownerId requester)
      then (Threw (appError Errors.FORBIDDEN
                     "You do not have permission to access this project."), w1)
      else (Returned p, w1)).
  { intros requester. unfold getProjectById, bind, Prisma.project_findUnique.
    rewrite Hlook. cbn. now destruct (String.eqb ownerId requester). }
  refine (conj eq_refl (conj eq_refl (conj eq_refl (conj _ (conj eq_refl
            (conj eq_refl (conj Hfresh (conj _ _)))))))).
  - cbn. now destruct (cp_status input).
  - rewrite Hget, String.eqb_refl. reflexivity.
  - intros requester Hne. rewrite Hget.
    assert (String.eqb ownerId requester = false) as ->
      by (apply String.eqb_neq; congruence).
    eexists. reflexivity.
Qed.

Lemma createProject_then_get_witness :
  getProjectById "c7" "u-bob"
    (createProject "u-bob" (mkCreateProjectInput "Plan the launch" None None)
       demoWorld).2
  = (Returned (Project.mk "c7" "Plan the launch" None "todo" "u-bob" 5000 5000),
     (createProject "u-bob" (mkCreateProjectInput "Plan the launch" None None)
        demoWorld).2).
Proof.
  apply (createProject_then_get demoWorld
           (createProject "u-bob"
              (mkCreateProjectInput "Plan the launch" None None) demoWorld).2
           "u-bob" (mkCreateProjectInput "Plan the launch" None None)
           (Project.mk "c7" "Plan the launch" None "todo" "u-bob" 5000 5000)
           eq_refl).
Defined.

(** A deletion that succeeds was asked by the owner of an existing
    project; afterwards the identifier resolves to nothing, so reading or
    deleting it again fails with NOT_FOUND for every requester, and no
    other project has changed. *)
Theorem deleteProject_then_gone
    (w w1 : World) (projectId ownerId : string) :
  deleteProject projectId ownerId w = (Returned tt, w1) ->
  (exists p, projects w !! projectId = Some p /\ Project.ownerId p = ownerId)
  /\ projects w1 !! projectId = None
  /\ users w1 = users w
  /\ (forall other, other <> projectId ->
        projects w1 !! other = projects w !! other)
  /\ (forall requester,
        failsWith Errors.NOT_FOUND
          (getProjectById projectId requester w1) w1
        /\ failsWith Errors.NOT_FOUND
             (deleteProject projectId requester w1) w1).
Proof.
  unfold deleteProject at 1, bind, Prisma.project_findUnique.
  destruct (projects w !! projectId) as [p|] eqn:Hp; [|discriminate].
  destruct (String.eqb (Project.ownerId p) ownerId) eqn:Hown; [|discriminate].
  cbn. unfold Prisma.project_delete. rewrite Hp. cbn.
  intros [= <-].
  assert (Hgone : projects (setProjects (delete projectId (projects w)) w)
                  !! projectId = None) by apply lookup_delete_eq.
  repeat apply conj.
  - exists p. split; [reflexivity | now apply String.eqb_eq].
  - exact Hgone.
  - reflexivity.
  - intros other Hne. cbn. now rewrite lookup_delete_ne.
  - intros requester. split.
    + apply getProjectById_missing, Hgone.
    + apply deleteProject_missing, Hgone.
Qed.

Lemma deleteProject_then_gone_witness :
  failsWith Errors.NOT_FOUND
    (getProjectById "p-1" "u-alice"
       (setProjects (delete "p-1" (projects demoWorld)) demoWorld))
    (setProjects (delete "p-1" (projects demoWorld)) demoWorld).
Proof.
  apply (deleteProject_then_gone demoWorld
           (setProjects (delete "p-1" (projects demoWorld)) demoWorld)
           "p-1" "u-alice" eq_refl).
Defined.




(** ** Listings *)

Lemma StronglySorted_filter {A} (R : relation A) (P : A -> Prop)
    `{!forall x, Decision (P x)} (l : list A) :
  StronglySorted R l -> StronglySorted R (filter P l).
Proof.
  induction 1 as [|x l Hl IH Hx]; [constructor|].
  rewrite filter_cons. destruct (decide (P x)); [|exact IH].
  constructor; [exact IH|].
  apply Forall_forall. intros y Hy.
  apply list_elem_of_filter in Hy as [_ Hy].
  rewrite Forall_forall in Hx. now apply Hx.
Qed.

Lemma StronglySorted_page {A} (R : relation A) (s t : nat) (l : list A) :
  StronglySorted R l -> StronglySorted R (PrismaQuery.page s t l).
Proof.
  intros Hl. unfold PrismaQuery.page.
  assert (Hdrop : StronglySorted R (drop s l)).
  { rewrite <- (take_drop s l) in Hl. now apply StronglySorted_app_1_r in Hl. }
  rewrite <- (take_drop t (drop s l)) in Hdrop.
  now apply StronglySorted_app_1_l in Hdrop.
Qed.

#[local] Instance newestFirst_trans : Transitive PrismaQuery.newestFirst.
Proof. unfold PrismaQuery.newestFirst. intros p q r ? ?. lia. Qed.

#[local] Instance newestFirst_total : Total PrismaQuery.newestFirst.
Proof. unfold PrismaQuery.newestFirst. intros p q. lia. Qed.

Lemma rowsWhere_sorted ownerId w :
  StronglySorted PrismaQuery.newestFirst (PrismaQuery.rowsWhere ownerId w).
Proof.
  unfold PrismaQuery.rowsWhere.
  pose proof (StronglySorted_merge_sort PrismaQuery.newestFirst
                (map_to_list (projects w)).*2) as Hs.
  destruct ownerId; [now apply StronglySorted_filter | exact Hs].
Qed.

Lemma rowsWhere_elem ownerId w p :
  p ∈ PrismaQuery.rowsWhere ownerId w <->
  (exists k, projects w !! k = Some p)
  /\ match ownerId with
     | Some o => Project.ownerId p = o
     | None => True
     end.
Proof.
  assert (Hrows : p ∈ merge_sort PrismaQuery.newestFirst
                        (map_to_list (projects w)).*2
                  <-> exists k, projects w !! k = Some p).
  { rewrite merge_sort_Permutation, list_elem_of_fmap. split.
    - intros ([k q] & -> & Hin). exists k. now apply elem_of_map_to_list.
    - intros [k Hk]. exists (k, p). split; [reflexivity|].
      now apply elem_of_map_to_list. }
  unfold PrismaQuery.rowsWhere. destruct ownerId as [o|].
  - rewrite list_elem_of_filter, Hrows. tauto.
  - rewrite Hrows. tauto.
Qed.

Lemma rowsWhere_length ownerId w :
  length (PrismaQuery.rowsWhere (Some ownerId) w)
  = length (filter (fun p => Project.ownerId p = ownerId)
              (map_to_list (projects w)).*2).
Proof.
  unfold PrismaQuery.rowsWhere. apply Permutation_length.
  now rewrite merge_sort_Permutation.
Qed.

Lemma project_findMany_in_range outOfRange ownerId (s t : Z) w :
  0 <= s -> 0 <= t ->
  PrismaQuery.project_findMany outOfRange ownerId (Int s) (Int t) w
  = (Returned (PrismaQuery.page (Z.to_nat s) (Z.to_nat t)
                 (PrismaQuery.rowsWhere ownerId w)), w).
Proof.
  intros Hs Ht. unfold PrismaQuery.project_findMany, PrismaQuery.window.
  assert ((0 <=? s)%Z = true) as -> by lia.
  assert ((0 <=? t)%Z = true) as -> by lia.
  reflexivity.
Qed.

Lemma getProjectsByOwner_in_range outOfRange ownerId (l o : Z) w :
  0 <= l -> 0 <= o ->
  getProjectsByOwner outOfRange ownerId (mkPaginationParams (Int l) (Int o)) w
  = (Returned
       (mkPaginatedResponse
          (PrismaQuery.page (Z.to_nat o) (Z.to_nat l)
             (PrismaQuery.rowsWhere (Some ownerId) w))
          (Z.of_nat (length (PrismaQuery.rowsWhere (Some ownerId) w)))
          (Int l) (Int o)), w).
Proof.
  intros Hl Ho. unfold getProjectsByOwner, bind. cbn [offset limit].
  now rewrite project_findMany_in_range.
Qed.

(** A user's listing, for a non-negative limit and offset, returns without
    touching the store: every item is a stored project of that user, the
    items come newest first, their number is the limit cut down to what is
    left after the offset, and the total counts all of the user's projects
    whatever the limit and the offset. *)
Theorem getProjectsByOwner_page
    (outOfRange : PrismaQuery.OutOfRange) (w : World) (ownerId : string)
    (l o : Z) :
  0 <= l -> 0 <= o ->
  let total :=
    Z.of_nat (length (filter (fun p => Project.ownerId p = ownerId)
                        (map_to_list (projects w)).*2)) in
  exists items,
    getProjectsByOwner outOfRange ownerId (mkPaginationParams (Int l) (Int o)) w
    = (Returned (mkPaginatedResponse items total (Int l) (Int o)), w)
    /\ Forall (fun p => Project.ownerId p = ownerId
                        /\ exists k, projects w !! k = Some p) items
    /\ StronglySorted PrismaQuery.newestFirst items
    /\ Z.of_nat (length items) = Z.min l (Z.max 0 (total - o)).
Proof.
  intros Hl Ho total.
  exists (PrismaQuery.page (Z.to_nat o) (Z.to_nat l)
            (PrismaQuery.rowsWhere (Some ownerId) w)).
  repeat apply conj.
  - rewrite getProjectsByOwner_in_range by assumption.
    now rewrite rowsWhere_length.
  - apply Forall_forall. intros p Hp.
    unfold PrismaQuery.page in Hp.
    apply subseteq_take, subseteq_drop in Hp.
    apply rowsWhere_elem in Hp. tauto.
  - apply StronglySorted_page, rowsWhere_sorted.
  - unfold PrismaQuery.page. rewrite length_take, length_drop.
    rewrite rowsWhere_length. subst total. lia.
Qed.

Lemma getProjectsByOwner_page_witness :
  exists items,
    getProjectsByOwner (fun _ _ _ => Returned []) "u-alice"
      (mkPaginationParams (Int 1) (Int 0)) demoWorld
    = (Returned (mkPaginatedResponse items 1 (Int 1) (Int 0)), demoWorld)
    /\ Z.of_nat (length items) = 1.
Proof.
  destruct (getProjectsByOwner_page (fun _ _ _ => Returned []) demoWorld
              "u-alice" 1 0 ltac:(lia) ltac:(lia))
    as (items & Hrun & _ & _ & Hlen).
  exists items. split; [exact Hrun | exact Hlen].
Defined.

(** Consecutive pages of a user's listing, read from the same store, put
    end to end are the one page that spans them: no project is skipped
    and none is repeated. *)
Theorem getProjectsByOwner_consecutive_pages
    (outOfRange : PrismaQuery.OutOfRange) (w : World) (ownerId : string)
    (o a b : Z) :
  0 <= o -> 0 <= a -> 0 <= b ->
  (itemsOf (getProjectsByOwner outOfRange ownerId
              (mkPaginationParams (Int a) (Int o)) w)
   ++ itemsOf (getProjectsByOwner outOfRange ownerId
                 (mkPaginationParams (Int b) (Int (o + a))) w))%list
  = itemsOf (getProjectsByOwner outOfRange ownerId
               (mkPaginationParams (Int (a + b)) (Int o)) w).
Proof.
  intros Ho Ha Hb.
  rewrite !getProjectsByOwner_in_range by lia.
  unfold itemsOf. cbn [fst pg_items]. unfold PrismaQuery.page.
  rewrite !Z2Nat.inj_add by lia.
  rewrite <- drop_drop. apply take_take_drop.
Qed.

Lemma getProjectsByOwner_consecutive_pages_witness :
  (itemsOf (getProjectsByOwner (fun _ _ _ => Returned []) "u-alice"
              (mkPaginationParams (Int 1) (Int 0)) demoWorld)
   ++ itemsOf (getProjectsByOwner (fun _ _ _ => Returned []) "u-alice"
                 (mkPaginationParams (Int 2) (Int 1)) demoWorld))%list
  = itemsOf (getProjectsByOwner (fun _ _ _ => Returned []) "u-alice"
               (mkPaginationParams (Int 3) (Int 0)) demoWorld).
Proof.
  apply (getProjectsByOwner_consecutive_pages (fun _ _ _ => Returned [])
           demoWorld "u-alice" 0 1 2); lia.
Defined.



Lemma find_exists {A} (f : A -> bool) (l : list A) (x : A) :
  x ∈ l -> f x = true -> exists y, find f l = Some y.
Proof.
  induction 1 as [x l | x y l _ IH]; intros Hx; cbn.
  - rewrite Hx. eauto.
  - destruct (f y); eauto.
Qed.

Lemma ownerOf_found w p o :
  PrismaQuery.ownerOf w p = Some o ->
  exists u,
    u ∈ users w /\ User.id u = Project.ownerId p
    /\ o = PrismaQuery.mkOwnerSummary (User.id u) (User.name u) (User.email u).
Proof.
  unfold PrismaQuery.ownerOf.
  destruct (find _ (users w)) as [u|] eqn:Hfind; [|discriminate].
  cbn. intros [= <-]. apply find_some in Hfind as [Hin Hid].
  exists u. repeat apply conj; try reflexivity.
  - now apply list_elem_of_In.
  - now apply String.eqb_eq.
Qed.

Lemma mapM_withOwner w rows items :
  mapM (PrismaQuery.withOwner w) rows = Some items ->
  PrismaQuery.pw_project <$> items = rows
  /\ Forall (fun row =>
               exists u,
                 u ∈ users w
                 /\ User.id u = Project.ownerId (PrismaQuery.pw_project row)
                 /\ PrismaQuery.pw_owner row
                    = PrismaQuery.mkOwnerSummary (User.id u) (User.name u)
                        (User.email u)) items.
Proof.
  intros H. apply mapM_Some_1 in H.
  induction H as [|p row rows items Hrow _ [IH1 IH2]]; [now split|].
  unfold PrismaQuery.withOwner in Hrow.
  destruct (PrismaQuery.ownerOf w p) as [o|] eqn:Ho; [|discriminate].
  cbn in Hrow. injection Hrow as <-.
  split; [cbn; now rewrite IH1|].
  constructor; [|exact IH2]. cbn. now apply ownerOf_found.
Qed.

(** The admin listing, for a non-negative limit and offset, on a store
    whose projects all have a stored owner: it returns without touching
    the store, its rows are the page of all projects, newest first, each
    with the id, name and email of the user that owns it, and the total
    counts every project of the store. *)
Theorem getAllProjects_page
    (outOfRange : PrismaQuery.OutOfRange) (w : World) (l o : Z) :
  ownersExist w ->
  0 <= l -> 0 <= o ->
  let total := Z.of_nat (size (projects w)) in
  exists items,
    getAllProjects outOfRange (mkPaginationParams (Int l) (Int o)) w
    = (Returned (mkPaginatedResponse items total (Int l) (Int o)), w)
    /\ StronglySorted PrismaQuery.newestFirst (PrismaQuery.pw_project <$> items)
    /\ Forall (fun row =>
                 (exists k,
                     projects w !! k = Some (PrismaQuery.pw_project row))
                 /\ exists u,
                      u ∈ users w
                      /\ User.id u
                         = Project.ownerId (PrismaQuery.pw_project row)
                      /\ PrismaQuery.pw_owner row
                         = PrismaQuery.mkOwnerSummary (User.id u) (User.name u)
                             (User.email u)) items
    /\ Z.of_nat (length items) = Z.min l (Z.max 0 (total - o)).
Proof.
  intros Hfk Hl Ho total.
  set (rows := PrismaQuery.page (Z.to_nat o) (Z.to_nat l)
                 (PrismaQuery.rowsWhere None w)).
  assert (Hstored : forall p, p ∈ rows -> exists k, projects w !! k = Some p).
  { intros p Hp. unfold rows, PrismaQuery.page in Hp.
    apply subseteq_take, subseteq_drop in Hp.
    apply rowsWhere_elem in Hp. tauto. }
  assert (Hall : is_Some (mapM (PrismaQuery.withOwner w) rows)).
  { apply mapM_is_Some, Forall_forall. intros p Hp.
    destruct (Hstored p Hp) as [k Hk].
    destruct (Hfk k p Hk) as (u & Hu & Hid).
    unfold compose, PrismaQuery.withOwner, PrismaQuery.ownerOf.
    destruct (find_exists (fun u => String.eqb (User.id u) (Project.ownerId p))
                (users w) u Hu) as [u' ->].
    - now apply String.eqb_eq.
    - cbn. eauto. }
  destruct Hall as [items Hitems].
  destruct (mapM_withOwner w rows items Hitems) as [Hproj Howner].
  assert (Hcount : length (PrismaQuery.rowsWhere None w) = size (projects w)).
  { unfold PrismaQuery.rowsWhere.
    rewrite (Permutation_length (merge_sort_Permutation _ _)).
    now rewrite length_fmap, length_map_to_list. }
  exists items. repeat apply conj.
  - unfold getAllProjects, bind, PrismaQuery.project_findManyWithOwner, bind.
    cbn [offset limit].
    rewrite project_findMany_in_range by assumption.
    fold rows. rewrite Hitems.
    unfold PrismaQuery.project_count, ret. now rewrite Hcount.
  - rewrite Hproj. apply StronglySorted_page, rowsWhere_sorted.
  - apply Forall_forall. intros row Hrow. split.
    + apply Hstored. rewrite <- Hproj. apply list_elem_of_fmap. eauto.
    + rewrite Forall_forall in Howner. now apply Howner.
  - assert (length items = length rows) as ->
      by (symmetry; eapply length_mapM; eassumption).
    unfold rows, PrismaQuery.page. rewrite length_take, length_drop, Hcount.
    subst total. lia.
Qed.

Lemma ownersExist_demoWorld : ownersExist demoWorld.
Proof.
  intros k p Hk. unfold demoWorld in Hk. cbn [projects] in Hk.
  apply lookup_singleton_Some in Hk as [_ <-].
  exists alice. split; [|reflexivity].
  apply list_elem_of_In. cbn. tauto.
Defined.

Lemma getAllProjects_page_witness :
  exists items,
    getAllProjects (fun _ _ _ => Returned [])
      (mkPaginationParams (Int 10) (Int 0)) demoWorld
    = (Returned (mkPaginatedResponse items 1 (Int 10) (Int 0)), demoWorld)
    /\ Z.of_nat (length items) = 1.
Proof.
  destruct (getAllProjects_page (fun _ _ _ => Returned []) demoWorld 10 0
              ownersExist_demoWorld ltac:(lia) ltac:(lia))
    as (items & Hrun & _ & _ & Hlen).
  exists items. split; [exact Hrun | exact Hlen].
Defined.

(** ** The service over a repository *)

(** The service over any repository looks the project up once, first.
    When the repository finds nothing, every operation on the project
    fails with NOT_FOUND, and when it finds a project of someone else the
    owner-scoped ones fail with FORBIDDEN: in both cases nothing more is
    asked of the repository.  Otherwise the operation is exactly the
    repository's update or delete, run after the look-up, with a patch
    holding the supplied fields only. *)
Theorem makeProjectsService_guards {W : Type}
    (repo : ProjectRepo.t W) (projectId requester : string)
    (input : UpdateProjectInput) (w w' : W) (found : option Project.t) :
  ProjectRepo.findById repo projectId w = (Returned found, w') ->
  (found = None ->
     failsWith Errors.NOT_FOUND
       (ProjectsServiceDI.getProjectById repo projectId requester w) w'
     /\ failsWith Errors.NOT_FOUND
          (ProjectsServiceDI.updateProject repo projectId requester input w) w'
     /\ failsWith Errors.NOT_FOUND
          (ProjectsServiceDI.deleteProject repo projectId requester w) w'
     /\ failsWith Errors.NOT_FOUND
          (ProjectsServiceDI.adminDeleteProject repo projectId w) w')
  /\ (forall p,
        found = Some p -> Project.ownerId p <> requester ->
        failsWith Errors.FORBIDDEN
          (ProjectsServiceDI.getProjectById repo projectId requester w) w'
        /\ failsWith Errors.FORBIDDEN
             (ProjectsServiceDI.updateProject repo projectId requester input w)
             w'
        /\ failsWith Errors.FORBIDDEN
             (ProjectsServiceDI.deleteProject repo projectId requester w) w')
  /\ (forall p,
        found = Some p -> Project.ownerId p = requester ->
        ProjectsServiceDI.getProjectById repo projectId requester w
        = (Returned p, w')
        /\ ProjectsServiceDI.updateProject repo projectId requester input w
           = ProjectRepo.update repo projectId
               (Prisma.mkProjectUpdate (up_title input) (up_description input)
                  (up_status input)) w'
        /\ ProjectsServiceDI.deleteProject repo projectId requester w
           = ProjectRepo.delete repo projectId w')
  /\ (forall p,
        found = Some p ->
        ProjectsServiceDI.adminDeleteProject repo projectId w
        = ProjectRepo.delete repo projectId w').
Proof.
  intros Hfind.
  unfold ProjectsServiceDI.getProjectById, ProjectsServiceDI.updateProject,
    ProjectsServiceDI.deleteProject, ProjectsServiceDI.adminDeleteProject.
  rewrite !(bind_returned _ _ _ _ _ Hfind).
  split; [|split; [|split]].
  - intros ->. repeat apply conj; eexists; reflexivity.
  - intros p -> Hne. apply String.eqb_neq in Hne. rewrite Hne. cbn [negb].
    repeat apply conj; eexists; reflexivity.
  - intros p -> Hown. apply String.eqb_eq in Hown. rewrite Hown. cbn [negb].
    repeat apply conj; try reflexivity.
    destruct input as [[t|] [d|] [s|]]; reflexivity.
  - intros p ->. reflexivity.
Qed.

Lemma makeProjectsService_guards_witness :
  failsWith Errors.FORBIDDEN
    (ProjectsServiceDI.deleteProject
       (createPrismaProjectRepo (fun _ _ _ => Returned [])) "p-1" "u-bob"
       demoWorld)
    demoWorld.
Proof.
  apply (makeProjectsService_guards
           (createPrismaProjectRepo (fun _ _ _ => Returned [])) "p-1" "u-bob"
           (mkUpdateProjectInput None None None) demoWorld demoWorld
           (Some aliceProject) eq_refl)
    with (p := aliceProject); [reflexivity | discriminate].
Defined.

(** The projects service built by [makeProjectsService] over the Prisma
    repository adapter is, operation by operation, the projects service
    written directly against the client: same result and same store for
    every input. *)
Theorem makeProjectsService_over_prisma
    (outOfRange : PrismaQuery.OutOfRange) (w : World)
    (projectId ownerId : string) (created : CreateProjectInput)
    (input : UpdateProjectInput) (pagination : PaginationParams) :
  let repo := createPrismaProjectRepo outOfRange in
  ProjectsServiceDI.createProject repo ownerId created w
  = createProject ownerId created w
  /\ ProjectsServiceDI.getProjectsByOwner repo ownerId pagination w
     = getProjectsByOwner outOfRange ownerId pagination w
  /\ ProjectsServiceDI.getProjectById repo projectId ownerId w
     = getProjectById projectId ownerId w
  /\ ProjectsServiceDI.updateProject repo projectId ownerId input w
     = updateProject projectId ownerId input w
  /\ ProjectsServiceDI.deleteProject repo projectId ownerId w
     = deleteProject projectId ownerId w
  /\ ProjectsServiceDI.getAllProjects repo pagination w
     = getAllProjects outOfRange pagination w
  /\ ProjectsServiceDI.adminDeleteProject repo projectId w
     = adminDeleteProject projectId w.
Proof.
  repeat apply conj; reflexivity.
Qed.

(** ** Sessions *)

(** Login returns only after the repository found a user for the email
    and the hasher accepted the password against that user's stored hash;
    the token is the one signed for that user's id and role, and the user
    object is that user's. *)
Theorem login_requires_matching_password {W : Type}
    (deps : AuthServiceDeps W) (input : LoginInput) (w w' : W) (r : Json) :
  AuthService.login deps input w = (Returned r, w') ->
  exists user w1 w2 token,
    findByEmail (userRepo deps) (li_email input) w = (Returned (Some user), w1)
    /\ compare (passwordHasher deps) (li_password input)
         (User.passwordHash user) w1 = (Returned true, w2)
    /\ sign (tokenSigner deps)
         (JwtPayload.mk (User.id user) (User.role user)) w2
       = (Returned token, w')
    /\ r = authResponse user token.
Proof.
  unfold AuthService.login, bind, throw, ret.
  destruct (findByEmail _ _ w) as [[[user|]|e] w1] eqn:Hfind;
    try discriminate.
  destruct (compare _ _ _ w1) as [[[|]|e] w2] eqn:Hcompare; try discriminate.
  cbn. destruct (sign _ _ w2) as [[token|e] w3] eqn:Hsign; try discriminate.
  intros [= <- <-]. exists user, w1, w2, token. auto.
Qed.

Lemma login_requires_matching_password_witness :
  exists user w1 w2 token,
    findByEmail (userRepo demoDeps) "alice@example.com" demoWorld
    = (Returned (Some user), w1)
    /\ compare (passwordHasher demoDeps) "User@1234" (User.passwordHash user) w1
       = (Returned true, w2)
    /\ sign (tokenSigner demoDeps)
         (JwtPayload.mk (User.id user) (User.role user)) w2
       = (Returned token, demoWorld)
    /\ authResponse alice
         "u-alice.user.86405.test-secret-key-for-testing-only"
       = authResponse user token.
Proof.
  apply (login_requires_matching_password demoDeps
           (mkLoginInput "alice@example.com" "User@1234") demoWorld demoWorld).
  vm_compute. reflexivity.
Defined.

Lemma register_default_run bcrypt codec env input w r w1 :
  AuthService.register (defaultDeps bcrypt codec env) input w
  = (Returned r, w1) ->
  find (fun u => String.eqb (User.email u) (ri_email input)) (users w) = None
  /\ existsb (fun u => String.eqb (User.id u) (Prisma.freshId w)) (users w)
     = false
  /\ w1 = setIdSupply (N.succ (idSupply w))
            (setUsers (users w ++ [registered bcrypt input w]) w)
  /\ r = authResponse (registered bcrypt input w)
           (tokenFor codec env (registered bcrypt input w) (clock w)).
Proof.
  unfold AuthService.register, bind; cbn.
  unfold Prisma.user_findByEmail.
  destruct (find _ (users w)) eqn:Hfind; [discriminate|].
  unfold ret at 1, Prisma.user_create; cbn.
  destruct (existsb _ (users w)); [discriminate|].
  destruct (existsb _ (users w)) eqn:Hid; [discriminate|].
  unfold ret. intros [= <- <-]. auto.
Qed.

(** A registration that succeeds appends exactly one user: with a new
    identifier, the given name and email, the role "user" whatever the
    input, and as password hash the output of the hasher at 10 rounds.
    No other user and no project changes, the email was not taken before,
    and the answer carries that user and the token signed for its id and
    the role "user". *)
Theorem register_creates_plain_user
    (bcrypt : Bcrypt) (codec : TokenCodec) (env : Env)
    (input : RegisterInput) (w w1 : World) (r : Json) :
  AuthService.register (defaultDeps bcrypt codec env) input w
  = (Returned r, w1) ->
  let user := registered bcrypt input w in
  users w1 = (users w ++ [user])%list
  /\ projects w1 = projects w
  /\ User.role user = "user"
  /\ User.passwordHash user = bcrypt_hash bcrypt (ri_password input) 10
  /\ (forall u, u ∈ users w ->
        User.email u <> ri_email input /\ User.id u <> User.id user)
  /\ r = authResponse user
           (jwt_sign codec (JwtPayload.mk (User.id user) "user")
              (jwtSecret env) (jwtExpiresIn env) (clock w)).
Proof.
  intros Hreg user.
  destruct (register_default_run _ _ _ _ _ _ _ Hreg)
    as (Hemail & Hid & -> & ->).
  repeat apply conj; try reflexivity.
  intros u Hu. apply list_elem_of_In in Hu. split.
  - pose proof (find_none _ _ Hemail u Hu) as H. now apply String.eqb_neq.
  - intros Heq. apply String.eqb_eq in Heq.
    assert (existsb (fun u => String.eqb (User.id u) (Prisma.freshId w))
              (users w) = true) by (apply existsb_exists; eauto).
    congruence.
Qed.

Lemma register_creates_plain_user_witness :
  User.role
    (registered demoBcrypt
       (mkRegisterInput "Carol" "carol@example.com" "Carol@1234") demoWorld)
  = "user"
  /\ projects
       (AuthService.register demoDeps
          (mkRegisterInput "Carol" "carol@example.com" "Carol@1234")
          demoWorld).2
     = projects demoWorld.
Proof.
  destruct (register_creates_plain_user demoBcrypt demoCodec demoEnv
              (mkRegisterInput "Carol" "carol@example.com" "Carol@1234")
              demoWorld
              (AuthService.register demoDeps
                 (mkRegisterInput "Carol" "carol@example.com" "Carol@1234")
                 demoWorld).2
              (authResponse
                 (registered demoBcrypt
                    (mkRegisterInput "Carol" "carol@example.com" "Carol@1234")
                    demoWorld)
                 "c7.user.86405.test-secret-key-for-testing-only"))
    as (_ & Hprojects & Hrole & _).
  - vm_compute. reflexivity.
  - split; [exact Hrole | exact Hprojects].
Defined.

Lemma find_existsb_false {A} (f : A -> bool) (l : list A) :
  existsb f l = false -> find f l = None.
Proof.
  induction l as [|a l IH]; cbn; [reflexivity|].
  destruct (f a); [discriminate | exact IH].
Qed.

(** After a registration, while the store is as the registration left it:
    the issued token, if the codec still accepts it, authenticates
    [GET /auth/me], which answers 200 with the very user object of the
    registration; and the same token is refused with FORBIDDEN on the
    admin route. *)
Theorem register_then_session
    (bcrypt : Bcrypt) (codec : TokenCodec) (env : Env)
    (input : RegisterInput) (w w1 : World) (r : Json) (t1 : Z)
    (req : Request.t) :
  AuthService.register (defaultDeps bcrypt codec env) input w
  = (Returned r, w1) ->
  let user := registered bcrypt input w in
  let token := tokenFor codec env user (clock w) in
  let later := setClock t1 w1 in
  jwt_verify codec token (jwtSecret env) t1
  = Returned (JwtPayload.mk (User.id user) (User.role user)) ->
  Request.authorization req = Some ("Bearer " ++ token) ->
  get "token" r = Some (JStr token)
  /\ get "user" r = Some (sanitizeUser user)
  /\ meRoute codec env (defaultDeps bcrypt codec env) req later
     = (sendSuccess (sanitizeUser user) 200, later)
  /\ rejects Errors.FORBIDDEN (adminDeleteRoute codec env req later) later.
Proof.
  intros Hreg user token later Hverify Hauth.
  destruct (register_default_run _ _ _ _ _ _ _ Hreg)
    as (Hemail & Hid & Hw1 & ->).
  assert (Hgate : authenticate codec env req later
                  = Next (Request.setUser
                            (JwtPayload.mk (User.id user) (User.role user))
                            req)).
  { rewrite (authenticate_verify _ _ _ _ _ Hauth).
    change (clock later) with t1. now rewrite Hverify. }
  assert (Hfind : Prisma.user_findById (User.id user) later
                  = (Returned (Some user), later)).
  { unfold Prisma.user_findById. subst later. rewrite Hw1. cbn.
    rewrite (find_app_none _ _ _ (find_existsb_false _ _ Hid)). cbn.
    now rewrite String.eqb_refl. }
  assert (Hme : AuthService.getCurrentUser (defaultDeps bcrypt codec env)
                  (User.id user) later
                = (Returned (sanitizeUser user), later)).
  { unfold AuthService.getCurrentUser, bind.
    cbn [userRepo defaultDeps findById createPrismaUserRepo].
    now rewrite Hfind. }
  split; [reflexivity|]. split; [reflexivity|]. split.
  - unfold meRoute, route. rewrite Hgate.
    unfold AuthController.me, respond, bind.
    change (Request.user (Request.setUser _ req))
      with (Some (JwtPayload.mk (User.id user) (User.role user))).
    cbv beta iota.
    change (JwtPayload.userId (JwtPayload.mk (User.id user) (User.role user)))
      with (User.id user).
    now rewrite Hme.
  - unfold adminDeleteRoute, route, adminGate, andThen. rewrite Hgate.
    unfold requireAdmin. cbn. apply rejects_sendError.
Qed.

Lemma register_then_session_witness :
  meRoute demoCodec demoEnv demoDeps
    (bearer "c7.user.86405.test-secret-key-for-testing-only" "")
    (setClock 60000
       (AuthService.register demoDeps
          (mkRegisterInput "Carol" "carol@example.com" "Carol@1234")
          demoWorld).2)
  = (sendSuccess
       (sanitizeUser
          (registered demoBcrypt
             (mkRegisterInput "Carol" "carol@example.com" "Carol@1234")
             demoWorld)) 200,
     setClock 60000
       (AuthService.register demoDeps
          (mkRegisterInput "Carol" "carol@example.com" "Carol@1234")
          demoWorld).2).
Proof.
  refine (proj1 (proj2 (proj2
    (register_then_session demoBcrypt demoCodec demoEnv
       (mkRegisterInput "Carol" "carol@example.com" "Carol@1234") demoWorld
       (AuthService.register demoDeps
          (mkRegisterInput "Carol" "carol@example.com" "Carol@1234")
          demoWorld).2
       (authResponse
          (registered demoBcrypt
             (mkRegisterInput "Carol" "carol@example.com" "Carol@1234")
             demoWorld)
          "c7.user.86405.test-secret-key-for-testing-only")
       60000 (bearer "c7.user.86405.test-secret-key-for-testing-only" "")
       _ _ _)))).
  - vm_compute. reflexivity.
  - vm_compute. reflexivity.
  - reflexivity.
Defined.

(** After a registration, while the users are as the registration left
    them: login with the same email and a password that the hasher
    accepts against the stored hash returns the registered user with a
    token for its id and the role "user"; a password the hasher rejects
    gives UNAUTHORIZED. *)
Theorem register_then_login
    (bcrypt : Bcrypt) (codec : TokenCodec) (env : Env)
    (input : RegisterInput) (w w1 : World) (r : Json) (t1 : Z)
    (password : string) :
  AuthService.register (defaultDeps bcrypt codec env) input w
  = (Returned r, w1) ->
  let user := registered bcrypt input w in
  let later := setClock t1 w1 in
  let attempt := mkLoginInput (ri_email input) password in
  (bcrypt_compare bcrypt password (User.passwordHash user) = true ->
     AuthService.login (defaultDeps bcrypt codec env) attempt later
     = (Returned (authResponse user (tokenFor codec env user t1)), later))
  /\ (bcrypt_compare bcrypt password (User.passwordHash user) = false ->
        failsWith Errors.UNAUTHORIZED
          (AuthService.login (defaultDeps bcrypt codec env) attempt later)
          later).
Proof.
  intros Hreg user later attempt.
  destruct (register_default_run _ _ _ _ _ _ _ Hreg)
    as (Hemail & Hid & Hw1 & _).
  assert (Hfind : Prisma.user_findByEmail (ri_email input) later
                  = (Returned (Some user), later)).
  { unfold Prisma.user_findByEmail. subst later. rewrite Hw1. cbn.
    rewrite (find_app_none _ _ _ Hemail). cbn.
    now rewrite String.eqb_refl. }
  split; intros Hcompare.
  - subst attempt. unfold AuthService.login, bind.
    cbn [userRepo defaultDeps findByEmail createPrismaUserRepo li_email].
    rewrite Hfind.
    cbn [passwordHasher defaultDeps compare bcryptHasher li_password].
    unfold ret at 1. rewrite Hcompare. reflexivity.
  - eexists. eapply login_wrong_password.
    + exact Hfind.
    + subst attempt.
      cbn [passwordHasher defaultDeps compare bcryptHasher li_password].
      unfold ret. now rewrite Hcompare.
Qed.

Lemma register_then_login_witness :
  failsWith Errors.UNAUTHORIZED
    (AuthService.login demoDeps
       (mkLoginInput "carol@example.com" "carol@1234")
       (setClock 60000
          (AuthService.register demoDeps
             (mkRegisterInput "Carol" "carol@example.com" "Carol@1234")
             demoWorld).2))
    (setClock 60000
       (AuthService.register demoDeps
          (mkRegisterInput "Carol" "carol@example.com" "Carol@1234")
          demoWorld).2).
Proof.
  refine (proj2
    (register_then_login demoBcrypt demoCodec demoEnv
       (mkRegisterInput "Carol" "carol@example.com" "Carol@1234") demoWorld
       (AuthService.register demoDeps
          (mkRegisterInput "Carol" "carol@example.com" "Carol@1234")
          demoWorld).2
       (authResponse
          (registered demoBcrypt
             (mkRegisterInput "Carol" "carol@example.com" "Carol@1234")
             demoWorld)
          "c7.user.86405.test-secret-key-for-testing-only")
       60000 "carol@1234" _) _).
  - vm_compute. reflexivity.
  - vm_compute. reflexivity.
Defined.

(** ** More on the rate limiter *)

Lemma rateLimit_step windowMs maxRequests req now
    (store : gmap string RateLimitEntry) :
  let entry := nextEntry windowMs now (store !! clientKeyOf req) in
  rateLimit windowMs maxRequests req now store
  = (answer maxRequests req (count entry) (resetTime entry),
     <[clientKeyOf req := entry]> store).
Proof.
  cbv zeta. unfold nextEntry.
  destruct (store !! clientKeyOf req) as [e|] eqn:Hlook.
  - destruct (Z.gtb_spec now (resetTime e)).
    + rewrite rateLimit_new_window; [reflexivity|].
      right. exists e. split; [exact Hlook | lia].
    + rewrite (rateLimit_in_window _ _ _ _ _ e); [reflexivity| exact Hlook |lia].
  - rewrite rateLimit_new_window; [reflexivity | now left].
Qed.

Lemma sweep_lookup now (store : gmap string RateLimitEntry) key :
  sweep now store !! key
  = match store !! key with
    | Some e => if decide (resetTime e < now) then None else Some e
    | None => None
    end.
Proof.
  unfold sweep. rewrite map_lookup_filter.
  destruct (store !! key) as [e|]; cbn; [|reflexivity].
  destruct (decide (resetTime e < now)); case_guard; cbn in *;
    tauto || reflexivity.
Qed.

(** The decisions taken for one client depend on nothing but that
    client's own entry and its own requests: they are those it would get
    if no other client had sent anything, from any store that holds the
    same entry for it.  Requests under other client keys neither use up
    its budget nor reset its window. *)
Theorem rate_limit_clients_independent (key : string) (events : list Event) :
  forall s1 s2 : gmap string RateLimitEntry,
    s1 !! key = s2 !! key ->
    decisionsFor key (serve events s1).1
    = decisionsFor key (serve (withoutOthers key events) s2).1.
Proof.
  induction events as [|[req now | now] rest IH]; intros s1 s2 Heq;
    [reflexivity| |].
  - cbn [withoutOthers]. destruct (decide (clientKeyOf req = key)) as [<- | Hne].
    + rewrite !serve_hit, !decisionsFor_cons_same.
      unfold authRateLimit. rewrite !rateLimit_step. cbn [fst snd gate answer].
      rewrite Heq. f_equal. apply IH.
      now rewrite !lookup_insert_eq.
    + rewrite serve_hit, decisionsFor_cons_other by exact Hne.
      apply IH. unfold authRateLimit.
      now rewrite rateLimit_other_key.
  - cbn [withoutOthers serve]. apply IH.
    now rewrite !sweep_lookup, Heq.
Qed.

Lemma rate_limit_clients_independent_witness :
  decisionsFor "10.0.0.1" (serve burst staleStore).1
  = decisionsFor "10.0.0.1"
      (serve (withoutOthers "10.0.0.1" burst)
         (<["10.0.0.2" := mkEntry 20 901000]> staleStore)).1.
Proof.
  apply (rate_limit_clients_independent "10.0.0.1" burst staleStore
           (<["10.0.0.2" := mkEntry 20 901000]> staleStore)).
  reflexivity.
Defined.


Lemma sweptFrom_later T T' (s1 s2 : gmap string RateLimitEntry) :
  T <= T' -> sweptFrom T s1 s2 -> sweptFrom T' s1 s2.
Proof.
  intros Hle H key. destruct (H key) as [Heq | (Hnone & e & He & Hlt)].
  - now left.
  - right. split; [exact Hnone|]. exists e. split; [exact He | lia].
Qed.

Lemma nextEntry_sweptFrom windowMs T now (s1 s2 : gmap string RateLimitEntry)
    key :
  sweptFrom T s1 s2 -> T <= now ->
  nextEntry windowMs now (s1 !! key) = nextEntry windowMs now (s2 !! key).
Proof.
  intros H Hle. destruct (H key) as [-> | (-> & e & -> & Hlt)];
    [reflexivity|].
  cbn. now assert ((now >? resetTime e) = true) as -> by lia.
Qed.

Lemma serve_without_sweeps events :
  forall T (s1 s2 : gmap string RateLimitEntry),
    sweptFrom T s1 s2 ->
    Forall (fun ev => T <= eventTime ev) events ->
    chronological events ->
    (serve events s1).1 = (serve (withoutSweeps events) s2).1.
Proof.
  unfold chronological.
  induction events as [|[req now | now] rest IH]; intros T s1 s2 Hs Hfrom Hsorted;
    [reflexivity| |].
  - apply Forall_cons in Hfrom as [Hnow _]. cbn in Hnow.
    cbn [fmap list_fmap] in Hsorted. apply StronglySorted_inv in Hsorted
      as [Hrest Hafter].
    cbn [withoutSweeps]. rewrite !serve_hit.
    unfold authRateLimit. rewrite !rateLimit_step. cbn [fst snd gate answer].
    rewrite (nextEntry_sweptFrom _ T now s1 s2 _ Hs Hnow).
    f_equal. apply (IH now).
    + intros key. destruct (decide (clientKeyOf req = key)) as [<- | Hne].
      * left. now rewrite !lookup_insert_eq.
      * rewrite !lookup_insert_ne by exact Hne.
        now apply (sweptFrom_later T now).
    + apply Forall_forall. intros ev Hev.
      rewrite Forall_forall in Hafter. apply Hafter.
      apply list_elem_of_fmap. eauto.
    + exact Hrest.
  - apply Forall_cons in Hfrom as [Hnow _]. cbn in Hnow.
    cbn [fmap list_fmap] in Hsorted. apply StronglySorted_inv in Hsorted
      as [Hrest Hafter].
    cbn [withoutSweeps serve]. apply (IH now).
    + intros key. rewrite sweep_lookup.
      destruct (Hs key) as [Heq | (Hnone & e & He & Hlt)].
      * rewrite Heq. destruct (s2 !! key) as [e|]; [|now left].
        destruct (decide (resetTime e < now)); [|now left].
        right. split; [reflexivity|]. now exists e.
      * rewrite Hnone. right. split; [reflexivity|].
        exists e. split; [exact He | lia].
    + apply Forall_forall. intros ev Hev.
      rewrite Forall_forall in Hafter. apply Hafter.
      apply list_elem_of_fmap. eauto.
    + exact Hrest.
Qed.

(** When the events come in the order of their time, the periodic
    clean-up changes no decision: every request is answered as if the
    clean-up had never run. *)
Theorem rate_limit_sweeps_invisible
    (events : list Event) (store : gmap string RateLimitEntry) :
  chronological events ->
  (serve events store).1 = (serve (withoutSweeps events) store).1.
Proof.
  intros Hsorted. destruct events as [|ev rest]; [reflexivity|].
  apply (serve_without_sweeps _ (eventTime ev)).
  - intros key. now left.
  - constructor; [cbn; lia|].
    unfold chronological in Hsorted. cbn [fmap list_fmap] in Hsorted.
    apply StronglySorted_inv in Hsorted as [_ Hafter].
    apply Forall_forall. intros ev' Hev.
    rewrite Forall_forall in Hafter. apply Hafter.
    apply list_elem_of_fmap. eauto.
  - exact Hsorted.
Qed.

Lemma rate_limit_sweeps_invisible_witness :
  (serve [Hit (anonymous JNull) 1000; Sweep 1000000;
          Hit (anonymous JNull) 1000001] staleStore).1
  = (serve [Hit (anonymous JNull) 1000; Hit (anonymous JNull) 1000001]
       staleStore).1.
Proof.
  apply (rate_limit_sweeps_invisible
           [Hit (anonymous JNull) 1000; Sweep 1000000;
            Hit (anonymous JNull) 1000001] staleStore).
  unfold chronological. cbn.
  repeat (constructor; [|repeat constructor; lia]). constructor.
Defined.

(** ** Decimal numbers through [parseInt] *)










(** ** Validation *)

(** The validation middleware checks the body, then the query, then the
    params, and stops at the first part whose schema throws: its answer
    is then exactly what the global error handler sends for that error
    (for a [ZodError], the 400 VALIDATION_ERROR with one detail per
    issue), and later parts are not looked at.  When nothing throws, the
    request goes on with each validated part replaced by its parsed value
    and the other parts as they were. *)
Theorem validateRequest_outcomes
    (schemas : Validate.ValidationSchemas) (req : Validate.Payload) :
  (forall e,
      Validate.applySchema (Validate.s_body schemas) (Validate.body req)
      = Threw e ->
      Validate.validateRequest schemas req = inl (errorHandler e))
  /\ (forall b e,
        Validate.applySchema (Validate.s_body schemas) (Validate.body req)
        = Returned b ->
        Validate.applySchema (Validate.s_query schemas) (Validate.query req)
        = Threw e ->
        Validate.validateRequest schemas req = inl (errorHandler e))
  /\ (forall b q e,
        Validate.applySchema (Validate.s_body schemas) (Validate.body req)
        = Returned b ->
        Validate.applySchema (Validate.s_query schemas) (Validate.query req)
        = Returned q ->
        Validate.applySchema (Validate.s_params schemas) (Validate.params req)
        = Threw e ->
        Validate.validateRequest schemas req = inl (errorHandler e))
  /\ (forall req',
        Validate.validateRequest schemas req = inr req' <->
        Validate.applySchema (Validate.s_body schemas) (Validate.body req)
        = Returned (Validate.body req')
        /\ Validate.applySchema (Validate.s_query schemas) (Validate.query req)
           = Returned (Validate.query req')
        /\ Validate.applySchema (Validate.s_params schemas)
             (Validate.params req)
           = Returned (Validate.params req')).
Proof.
  assert (Hsame : forall e,
    match e with
    | ZodError issues =>
        inl (sendError (Errors.code Errors.VALIDATION_ERROR)
               "Validation failed" (Errors.status Errors.VALIDATION_ERROR)
               (Some (JArr (map (fun e => JObj [("field", JStr (join "." e.1));
                                                 ("message", JStr e.2)])
                              issues))))
    | _ => inl (errorHandler e)
    end = (inl (errorHandler e) : HttpResponse + Validate.Payload)).
  { intros [issues | c m s d | n m c t]; reflexivity. }
  unfold Validate.validateRequest.
  destruct (Validate.applySchema (Validate.s_body schemas) _) as [b|eb].
  2: { repeat apply conj; try discriminate.
       - intros e [= ->]. apply Hsame.
       - intros req'. split; [|intros [H _]; discriminate H].
         rewrite (Hsame eb). discriminate. }
  destruct (Validate.applySchema (Validate.s_query schemas) _) as [q|eq].
  2: { repeat apply conj; try discriminate.
       - intros b' e _ [= ->]. apply Hsame.
       - intros req'. split; [|intros (_ & H & _); discriminate H].
         rewrite (Hsame eq). discriminate. }
  destruct (Validate.applySchema (Validate.s_params schemas) _) as [p|ep].
  2: { repeat apply conj; try discriminate.
       - intros b' q' e _ _ [= ->]. apply Hsame.
       - intros req'. split; [|intros (_ & _ & H); discriminate H].
         rewrite (Hsame ep). discriminate. }
  repeat apply conj; try discriminate.
  intros [b' q' p']. cbn. split.
  - intros [= -> -> ->]. auto.
  - intros ([= ->] & [= ->] & [= ->]). reflexivity.
Qed.

Lemma validateRequest_outcomes_witness :
  Validate.validateRequest
    (Validate.mkValidationSchemas
       (Some (fun _ => Threw (required "title"))) None None)
    (Validate.mkPayload JNull JNull JNull)
  = inl (errorHandler (required "title")).
Proof.
  apply (validateRequest_outcomes
           (Validate.mkValidationSchemas
              (Some (fun _ => Threw (required "title"))) None None)
           (Validate.mkPayload JNull JNull JNull)).
  reflexivity.
Defined.

(** ** The constraints of the schema *)

Lemma wellFormed_same w w' :
  users w' = users w -> projects w' = projects w ->
  wellFormed w -> wellFormed w'.
Proof.
  unfold wellFormed, ownersExist. intros -> ->. tauto.
Qed.

Lemma wellFormed_delete w projectId :
  wellFormed w -> wellFormed (setProjects (delete projectId (projects w)) w).
Proof.
  intros (Hfk & Hid & He & Hi). repeat apply conj; cbn; try assumption.
  - intros k p Hk. cbn in Hk. apply lookup_delete_Some in Hk as [_ Hk]. eauto.
  - intros k p Hk. cbn in Hk. apply lookup_delete_Some in Hk as [_ Hk]. eauto.
Qed.

Lemma wellFormed_insert w k p :
  wellFormed w ->
  Project.id p = k ->
  (exists u, u ∈ users w /\ User.id u = Project.ownerId p) ->
  wellFormed (setProjects (<[k := p]> (projects w)) w).
Proof.
  intros (Hfk & Hid & He & Hi) Hk Hu. repeat apply conj; cbn; try assumption.
  - intros k' p' Hk'. cbn in Hk'.
    apply lookup_insert_Some in Hk' as [[_ <-] | [_ Hk']]; [exact Hu | eauto].
  - intros k' p' Hk'. cbn in Hk'.
    apply lookup_insert_Some in Hk' as [[<- <-] | [_ Hk']]; [exact Hk | eauto].
Qed.

Lemma project_delete_wellFormed w projectId :
  wellFormed w -> wellFormed (Prisma.project_delete projectId w).2.
Proof.
  intros Hw. unfold Prisma.project_delete.
  destruct (projects w !! projectId); [now apply wellFormed_delete | exact Hw].
Qed.

Lemma existsb_elem {A} (f : A -> bool) (l : list A) :
  existsb f l = true -> exists x, x ∈ l /\ f x = true.
Proof.
  intros H. apply existsb_exists in H as (x & Hin & Hx).
  exists x. split; [now apply list_elem_of_In | exact Hx].
Qed.

Lemma existsb_none {A} (f : A -> bool) (l : list A) (x : A) :
  existsb f l = false -> x ∈ l -> f x = false.
Proof.
  intros H Hin. destruct (f x) eqn:Hx; [|reflexivity].
  assert (existsb f l = true)
    by (apply existsb_exists; exists x; split;
        [now apply list_elem_of_In | exact Hx]).
  congruence.
Qed.

(** The operations of the two services keep the constraints of the
    schema: whatever their input and whether they return or throw, a
    store that satisfies the constraints still does afterwards. *)
Theorem services_keep_wellFormed
    (bcrypt : Bcrypt) (codec : TokenCodec) (env : Env) (w : World)
    (projectId requester : string) (created : CreateProjectInput)
    (input : UpdateProjectInput) (registration : RegisterInput)
    (attempt : LoginInput) :
  wellFormed w ->
  wellFormed (createProject requester created w).2
  /\ wellFormed (getProjectById projectId requester w).2
  /\ wellFormed (updateProject projectId requester input w).2
  /\ wellFormed (deleteProject projectId requester w).2
  /\ wellFormed (adminDeleteProject projectId w).2
  /\ wellFormed
       (AuthService.register (defaultDeps bcrypt codec env) registration w).2
  /\ wellFormed
       (AuthService.login (defaultDeps bcrypt codec env) attempt w).2
  /\ wellFormed
       (AuthService.getCurrentUser (defaultDeps bcrypt codec env) requester w).2.
Proof.
  intros Hw.
  assert (Hlookup : forall p, projects w !! projectId = Some p ->
            Project.id p = projectId
            /\ exists u, u ∈ users w /\ User.id u = Project.ownerId p).
  { intros p Hp. destruct Hw as (Hfk & Hid & _). split; eauto. }
  split; [|split; [|split; [|split; [|split; [|split; [|split]]]]]].
  - unfold createProject, Prisma.project_create.
    destruct (existsb _ (users w)) eqn:Howner; cbn [negb]; [|exact Hw].
    destruct (projects w !! Prisma.freshId w); [exact Hw|].
    cbn [snd].
    refine (wellFormed_same (setProjects (<[_ := _]> (projects w)) w) _
              eq_refl eq_refl (wellFormed_insert w _ _ Hw eq_refl _)).
    apply existsb_elem in Howner as (u & Hu & Hid).
    exists u. split; [exact Hu | now apply String.eqb_eq].
  - unfold getProjectById, bind, Prisma.project_findUnique.
    destruct (projects w !! projectId) as [p|]; [|exact Hw].
    now destruct (negb _).
  - unfold updateProject, bind, Prisma.project_findUnique.
    destruct (projects w !! projectId) as [p|] eqn:Hp; [|exact Hw].
    destruct (negb _); [exact Hw|].
    unfold Prisma.project_update. rewrite Hp. cbn [snd].
    destruct (Hlookup p eq_refl) as [Hid Hu].
    apply wellFormed_insert; [exact Hw | exact Hid | exact Hu].
  - unfold deleteProject, bind, Prisma.project_findUnique.
    destruct (projects w !! projectId) as [p|] eqn:Hp; [|exact Hw].
    destruct (negb _); [exact Hw|].
    pose proof (project_delete_wellFormed w projectId Hw) as Hd.
    now destruct (Prisma.project_delete projectId w) as [[?|?] ?].
  - unfold adminDeleteProject, bind, Prisma.project_findUnique.
    destruct (projects w !! projectId) as [p|] eqn:Hp; [|exact Hw].
    pose proof (project_delete_wellFormed w projectId Hw) as Hd.
    now destruct (Prisma.project_delete projectId w) as [[?|?] ?].
  - unfold AuthService.register, bind.
    cbn [userRepo passwordHasher tokenSigner defaultDeps findByEmail
         create hash sign createPrismaUserRepo bcryptHasher jwtTokenSigner].
    unfold Prisma.user_findByEmail.
    destruct (find _ (users w)) eqn:Hfind; [exact Hw|].
    unfold ret at 1. unfold Prisma.user_create. cbn [Prisma.uc_email].
    match goal with
    | |- context [if ?b then _ else _] => destruct b eqn:Hemail
    end; [exact Hw|].
    match goal with
    | |- context [if ?b then _ else _] => destruct b eqn:Hfresh
    end; [exact Hw|].
    cbn [snd ret fst].
    destruct Hw as (Hfk & Hid & He & Hi).
    repeat apply conj; cbn.
    + intros k p Hk. destruct (Hfk k p Hk) as (u & Hu & Hou).
      exists u. split; [|exact Hou]. apply elem_of_app. now left.
    + exact Hid.
    + rewrite fmap_app. apply NoDup_app. split; [exact He|]. split.
      * intros e He1 He2. apply list_elem_of_fmap in He1 as (u & -> & Hu).
        cbn in He2. apply list_elem_of_singleton in He2.
        pose proof (existsb_none _ _ u Hemail Hu) as Hne. cbn in Hne.
        apply String.eqb_neq in Hne. congruence.
      * cbn. apply NoDup_singleton.
    + rewrite fmap_app. apply NoDup_app. split; [exact Hi|]. split.
      * intros i Hi1 Hi2. apply list_elem_of_fmap in Hi1 as (u & -> & Hu).
        cbn in Hi2. apply list_elem_of_singleton in Hi2.
        pose proof (existsb_none _ _ u Hfresh Hu) as Hne. cbn in Hne.
        apply String.eqb_neq in Hne. congruence.
      * cbn. apply NoDup_singleton.
  - unfold AuthService.login, bind.
    cbn [userRepo passwordHasher tokenSigner defaultDeps findByEmail
         compare sign createPrismaUserRepo bcryptHasher jwtTokenSigner].
    unfold Prisma.user_findByEmail.
    destruct (find _ (users w)); [|exact Hw].
    unfold ret at 1. now destruct (negb _).
  - unfold AuthService.getCurrentUser, bind.
    cbn [userRepo defaultDeps findById createPrismaUserRepo].
    unfold Prisma.user_findById.
    now destruct (find _ (users w)).
Qed.

Lemma wellFormed_demoWorld : wellFormed demoWorld.
Proof.
  repeat apply conj.
  - exact ownersExist_demoWorld.
  - intros k p Hk. unfold demoWorld in Hk. cbn [projects] in Hk.
    now apply lookup_singleton_Some in Hk as [<- <-].
  - refine (bool_decide_unpack _ _). vm_compute. exact I.
  - refine (bool_decide_unpack _ _). vm_compute. exact I.
Defined.

Lemma services_keep_wellFormed_witness :
  wellFormed
    (AuthService.register demoDeps
       (mkRegisterInput "Carol" "carol@example.com" "Carol@1234") demoWorld).2
  /\ wellFormed
       (createProject "u-bob" (mkCreateProjectInput "Bob's plan" None None)
          demoWorld).2.
Proof.
  pose proof (services_keep_wellFormed demoBcrypt demoCodec demoEnv demoWorld
                "p-1" "u-bob" (mkCreateProjectInput "Bob's plan" None None)
                (mkUpdateProjectInput None None None)
                (mkRegisterInput "Carol" "carol@example.com" "Carol@1234")
                (mkLoginInput "alice@example.com" "User@1234")
                wellFormed_demoWorld)
    as (Hcreate & _ & _ & _ & _ & Hregister & _).
  split; [exact Hregister | exact Hcreate].
Defined.

(** ** Creating a project through the controller *)

(** [POST /projects] for an authenticated user.  A body that the schema
    rejects is answered by the error handler without touching the store.
    A valid body for a stored user, when the next identifier is free,
    is answered 201 with the stored project, whose owner is the subject of
    the claim.  When the subject is no stored user, the store refuses the
    insert and the answer is the 500 INTERNAL_ERROR. *)
Theorem create_controller
    (schema : Json -> Outcome CreateProjectInput) (req : Request.t)
    (claim : JwtPayload.t) (w : World) :
  Request.user req = Some claim ->
  (forall e,
      schema (Request.body req) = Threw e ->
      ListingControllers.create schema req w = (errorHandler e, w))
  /\ (forall input,
        schema (Request.body req) = Returned input ->
        (forall u, u ∈ users w -> User.id u <> JwtPayload.userId claim) ->
        ListingControllers.create schema req w = (internalError, w))
  /\ (forall input u,
        schema (Request.body req) = Returned input ->
        u ∈ users w -> User.id u = JwtPayload.userId claim ->
        projects w !! Prisma.freshId w = None ->
        exists p w1,
          ListingControllers.create schema req w
          = (sendSuccess (projectJson p) 201, w1)
          /\ Project.ownerId p = JwtPayload.userId claim
          /\ Project.title p = cp_title input
          /\ projects w1 !! Project.id p = Some p
          /\ users w1 = users w).
Proof.
  intros Hclaim. unfold ListingControllers.create, respond, bind, parse.
  rewrite Hclaim. repeat apply conj.
  - intros e ->. reflexivity.
  - intros input -> Hnone.
    unfold createProject, Prisma.project_create. cbn [Prisma.pc_ownerId].
    assert (existsb (fun u => String.eqb (User.id u) (JwtPayload.userId claim))
              (users w) = false) as ->.
    { destruct (existsb _ (users w)) eqn:H; [|reflexivity].
      apply existsb_elem in H as (u & Hu & Hid).
      apply String.eqb_eq in Hid. now destruct (Hnone u Hu). }
    reflexivity.
  - intros input u -> Hu Hid Hfresh.
    unfold createProject, Prisma.project_create. cbn [Prisma.pc_ownerId].
    assert (existsb (fun u => String.eqb (User.id u) (JwtPayload.userId claim))
              (users w) = true) as ->.
    { apply existsb_exists. exists u. split; [now apply list_elem_of_In|].
      now apply String.eqb_eq. }
    cbn [negb]. rewrite Hfresh. eexists _, _.
    split; [reflexivity|]. repeat apply conj; try reflexivity.
    cbn. apply lookup_insert_eq.
Qed.

Lemma create_controller_witness :
  ListingControllers.create demoCreateProjectSchema
    (asUser "u-bob" "user" "" (JObj [("title", JStr "ab")])) demoWorld
  = (errorHandler
       (ZodError [(["title"], "Title must be at least 3 characters")]),
     demoWorld)
  /\ ListingControllers.create demoCreateProjectSchema
       (asUser "u-gone" "user" "" (JObj [("title", JStr "Orphan")])) demoWorld
     = (internalError, demoWorld).
Proof.
  split.
  - apply (create_controller demoCreateProjectSchema
             (asUser "u-bob" "user" "" (JObj [("title", JStr "ab")]))
             (JwtPayload.mk "u-bob" "user") demoWorld eq_refl).
    reflexivity.
  - apply (create_controller demoCreateProjectSchema
             (asUser "u-gone" "user" "" (JObj [("title", JStr "Orphan")]))
             (JwtPayload.mk "u-gone" "user") demoWorld eq_refl)
      with (input := mkCreateProjectInput "Orphan" None None).
    + reflexivity.
    + intros u Hu. apply list_elem_of_In in Hu. cbn in Hu.
      repeat (destruct Hu as [<- | Hu]; [discriminate|]). destruct Hu.
Defined.
